(** * Ward Trucking API client (package ward, ward.go)

    A shallow embedding of the Go package [ward]: the package-level
    configuration ([pickupRequestURL], [timeout]), the request and
    response structures with their XML struct tags, and the two exported
    operations [RequestPickup] and [RateQuote].

    The package calls into [encoding/xml], [net/http], [io/ioutil] and
    [log].  Those libraries are not part of the package: every result they
    hand back is a field of the record [Env], and every call the package
    makes to the outside is recorded, in order, in a trace of events.

    ward.go also carries an earlier revision of the package, with pickup
    requests only and the endpoint variable named [wardURL]; its
    [SetProductionMode], [SetTimeout] and [RequestPickup] are statement
    for statement the ones embedded here. *)

From Stdlib Require Import ZArith String Ascii List Bool Lia.
Import ListNotations.

Local Open Scope string_scope.
Local Open Scope Z_scope.

Module Ward.

(** ** Strings

    Go strings and byte slices are sequences of bytes: [string]. *)

Definition nl : string := String "010"%char EmptyString.
Definition dq : string := String "034"%char EmptyString.

(** [xml.Header] of encoding/xml: the XML declaration and a newline. *)
Definition xml_Header : string :=
  "<?xml version=" ++ dq ++ "1.0" ++ dq ++ " encoding=" ++ dq ++ "UTF-8" ++ dq ++ "?>" ++ nl.

(** ** time.Duration

    [time.Duration] is an int64 count of nanoseconds; arithmetic on it
    wraps around in two's complement. *)

Definition Duration : Type := Z.

Definition int64_min : Z := - 2 ^ 63.
Definition int64_max : Z := 2 ^ 63 - 1.

Definition wrap64 (z : Z) : Z := (z + 2 ^ 63) mod 2 ^ 64 - 2 ^ 63.

Definition int64_mul (a b : Z) : Z := wrap64 (a * b).

Definition time_Nanosecond : Duration := 1.
Definition time_Microsecond : Duration := int64_mul 1000 time_Nanosecond.
Definition time_Millisecond : Duration := int64_mul 1000 time_Microsecond.
Definition time_Second : Duration := int64_mul 1000 time_Millisecond.

(** ** Errors

    The [error] interface: [None] is [nil].  A non-nil error is one made
    by a library ([ExternalError]), by [errors.New] or by [errors.Wrap] of
    github.com/pkg/errors. *)

Inductive error : Type :=
| ExternalError (msg : string)
| NewError (msg : string)
| WrapError (cause : error) (msg : string).

(** [errors.New(message)] *)
Definition errors_New (message : string) : option error :=
  Some (NewError message).

(** [errors.Wrap(err, message)]: nil when [err] is nil. *)
Definition errors_Wrap (err : option error) (message : string) : option error :=
  match err with
  | None => None
  | Some e => Some (WrapError e message)
  end.

(** The [Error()] method: a wrapped error prints its message, a colon and
    the cause. *)
Fixpoint Error (e : error) : string :=
  match e with
  | ExternalError msg => msg
  | NewError msg => msg
  | WrapError cause msg => msg ++ ": " ++ Error cause
  end.

(** ** API URLs and base XML data *)

Definition pickupRequestTestURL : string := "http://208.51.75.23:6082/cgi-bin/map/PICKUPTEST".
Definition pickupRequestProductionURL : string := "http://208.51.75.23:6082/cgi-bin/map/PICKUP".
Definition rateQuoteURL : string := "http://208.51.75.23:6082/cgi-bin/map/RATEQUOTE".

(** Unexported package variables that no function assigns. *)
Definition xsiAttr : string := "http://www.w3.org/2001/XMLSchema-instance".
Definition xsdAttr : string := "http://www.w3.org/2001/XMLSchema".
Definition soap12Attr : string := "http://www.w3.org/2003/05/soap-envelope".

(** ** Data model

    Records follow the Go structs field by field.  Go scopes field names
    by struct; where two structs share a field name the later one carries
    a prefix here. *)

(** [xml.Name] *)
Record xml_Name : Type := mk_xml_Name {
  Space : string;
  Local : string
}.

Definition uint : Type := N.

(** [float64], by its IEEE 754 bit pattern ([math.Float64bits]): the
    package stores such values and never computes on them.  Zero is the
    pattern of [+0]. *)
Definition float64 : Type := Z.

(** [PickupRequestShipperInformation] is our ship from address. *)
Record PickupRequestShipperInformation : Type := {
  ShipperCode : string;
  ShipperName : string;
  ShipperAddress1 : string;
  ShipperAddress2 : string;
  ShipperCity : string;
  ShipperState : string;
  ShipperZipcode : string;
  ShipperContactName : string;
  ShipperContactTelephone : string;
  ShipperContactEmail : string;
  ShipperReadyTime : string;
  ShipperCloseTime : string;
  PickupDate : string;
  ThirdParty : string;
  ThirdPartyName : string;
  ThirdPartyContactName : string;
  ThirdPartyContactTelephone : string;
  ThirdPartyContactEmail : string;
  WardAssuredContactName : string;
  WardAssuredContactTelephone : string;
  WardAssuredContactEmail : string;
  ShipperRestriction : string;
  DriverNote1 : string;
  DriverNote2 : string;
  DriverNote3 : string;
  RequestOrigin : string;
  RequestorUser : string;
  RequestorRole : string;
  RequestorContactName : string;
  RequestorContactTelephone : string;
  RequestorContactEmail : string
}.

(** [PickupRequestShipment] is the data on the shipment we are requesting
    a pickup for.  Its last field is [RequestOrigin] in the source; the
    name is taken by the shipper record above. *)
Record PickupRequestShipment : Type := {
  Pieces : uint;
  PackageCode : string;
  Weight : uint;
  ConsigneeCode : string;
  ConsigneeName : string;
  ConsigneeAddress1 : string;
  ConsigneeAddress2 : string;
  ConsigneeCity : string;
  ConsigneeState : string;
  ConsigneeZipcode : string;
  ShipperRoutingSCAC : string;
  Hazardous : string;
  Freezable : string;
  DeliveryAppntFlag : string;
  DeliveryAppntDate : string;
  WardAssured12PM : string;
  WardAssured03PM : string;
  WardAssuredTimeDefinite : string;
  WardAssuredTimeDefiniteStart : string;
  WardAssuredTimeDefiniteEnd : string;
  FullValue : string;
  FullValueInsuredAmount : string;
  NonStandardSize : string;
  NonStandardSizeDescription : string;
  RequestorReference : string;
  PickupShipmentInstruction1 : string;
  PickupShipmentInstruction2 : string;
  PickupShipmentInstruction3 : string;
  PickupShipmentInstruction4 : string;
  ShipmentRequestOrigin : string
}.

(** [PickupRequest] is the main body of the xml request to schedule a
    pickup. *)
Record PickupRequest : Type := {
  XMLName : xml_Name;
  XsiAttr : string;
  XsdAttr : string;
  Soap12Attr : string;
  ShipperInfo : PickupRequestShipperInformation;
  Shipment : PickupRequestShipment
}.

(** The [xml:] struct tags of [PickupRequest], field by field. *)
Definition PickupRequest_tags : list (string * string) :=
  [ ("XMLName", "soap12:Envelope");
    ("XsiAttr", "xmlns:xsi,attr");
    ("XsdAttr", "xmlns:xsd,attr");
    ("Soap12Attr", "xmlns:soap12,attr");
    ("ShipperInfo", "soap12:Body>request>ShipperInformation");
    ("Shipment", "soap12:Body>request>Shipment") ].

(** [PickupRequestResponseResult] is the actual body of the pickup request
    response. *)
Record PickupRequestResponseResult : Type := {
  PickupConfirmation : string;
  Message : string;
  PickupTerminal : string;
  WardTelephone : string;
  WardEmail : string
}.

(** [PickupRequestResponse] is the data we get back when a pickup is
    scheduled successfully. *)
Record PickupRequestResponse : Type := {
  PickupRequestResponse_XMLName : xml_Name;
  CreateResult : PickupRequestResponseResult
}.

Definition PickupRequestResponse_tags : list (string * string) :=
  [ ("XMLName", "Envelope");
    ("CreateResult", "Body>CreateResponse>CreateResult") ].

(** [RateQuoteDetailItem] is the details for the goods you need a rate
    quote on. *)
Record RateQuoteDetailItem : Type := {
  DetailWeight : uint;
  DetailPieces : uint;
  DetailClass : uint
}.

(** [RateQuoteAccessorialItem] is a code to note special characteristics of
    this rate quote. *)
Record RateQuoteAccessorialItem : Type := {
  Code : string;
  Description : string;
  Amount : float64
}.

(** [RateQuoteRequestInner] is the inner request data. *)
Record RateQuoteRequestInner : Type := {
  Details : list RateQuoteDetailItem;
  Accessorials : list RateQuoteAccessorialItem;
  BillingTerms : string;
  OriginCity : string;
  OriginState : string;
  OriginZipcode : string;
  DestinationCity : string;
  DestinationState : string;
  DestinationZipcode : string;
  PalletCount : uint;
  Customer : string
}.

(** [RateQuoteRequest] is the main body of the xml request to get a rate
    quote. *)
Record RateQuoteRequest : Type := {
  RQ_XMLName : xml_Name;
  RQ_XsiAttr : string;
  RQ_XsdAttr : string;
  RQ_Soap12Attr : string;
  Request : RateQuoteRequestInner
}.

Definition RateQuoteRequest_tags : list (string * string) :=
  [ ("XMLName", "soap12:Envelope");
    ("XsiAttr", "xmlns:xsi,attr");
    ("XsdAttr", "xmlns:xsd,attr");
    ("Soap12Attr", "xmlns:soap12,attr");
    ("Request", "soap12:Body>request") ].

(** [ServiceCenter] is the freight terminal that handles a pickup or
    delivery. *)
Record ServiceCenter : Type := {
  ID : uint;
  Name : string;
  Manager : string;
  Address : string;
  City : string;
  State : string;
  ZipCode : string;
  TransitDays : uint;
  Fax : string;
  Phone : string
}.

(** [RateQuoteResponseRateDetails] is some inner info about the rate
    quote. *)
Record RateQuoteResponseRateDetails : Type := {
  RateClass : string;
  RateWeight : uint;
  RateAmount : float64;
  Rate : float64;
  RatePieces : uint;
  RateAccessorials : list RateQuoteAccessorialItem
}.

(** The anonymous struct of the [CustomerService] field. *)
Record CustomerServiceInfo : Type := {
  CustomerServicePhone : string
}.

(** [RateQuoteResponseResult] is the actual body of the rate quote
    response. *)
Record RateQuoteResponseResult : Type := {
  OriginServiceCenter : ServiceCenter;
  DestinationServiceCenter : ServiceCenter;
  CustomerService : CustomerServiceInfo;
  ResultCustomer : string;
  ShipZip : string;
  ConsZip : string;
  DiscountPercent : float64;
  DiscountAmount : float64;
  FuelSurchargePercent : float64;
  FuelSurchargeAmount : float64;
  NetCharge : float64;
  Tarrif : string;
  PricingEffectiveDate : string;
  QuoteID : string;
  RateDetails : list RateQuoteResponseRateDetails
}.

(** [RateQuoteResponse] is the format of data returned from a rate quote
    request when a rate is retrieved successfully. *)
Record RateQuoteResponse : Type := {
  RateQuoteResponse_XMLName : xml_Name;
  RQ_CreateResult : RateQuoteResponseResult
}.

Definition RateQuoteResponse_tags : list (string * string) :=
  [ ("XMLName", "Envelope");
    ("CreateResult", "Body>CreateResponse>CreateResult") ].

(** The struct tag declared for a field. *)
Fixpoint tag_of (tags : list (string * string)) (field : string) : option string :=
  match tags with
  | [] => None
  | (f, t) :: rest => if String.eqb f field then Some t else tag_of rest field
  end.

(** ** Zero values

    A named result such as [responseData] starts as the zero value of its
    type. *)

Definition xml_Name_zero : xml_Name :=
  {| Space := EmptyString; Local := EmptyString |}.

Definition PickupRequestResponseResult_zero : PickupRequestResponseResult :=
  {| PickupConfirmation := EmptyString;
     Message := EmptyString;
     PickupTerminal := EmptyString;
     WardTelephone := EmptyString;
     WardEmail := EmptyString |}.

Definition PickupRequestResponse_zero : PickupRequestResponse :=
  {| PickupRequestResponse_XMLName := xml_Name_zero;
     CreateResult := PickupRequestResponseResult_zero |}.

Definition ServiceCenter_zero : ServiceCenter :=
  {| ID := 0%N; Name := EmptyString; Manager := EmptyString;
     Address := EmptyString; City := EmptyString; State := EmptyString;
     ZipCode := EmptyString; TransitDays := 0%N; Fax := EmptyString;
     Phone := EmptyString |}.

Definition RateQuoteResponseResult_zero : RateQuoteResponseResult :=
  {| OriginServiceCenter := ServiceCenter_zero;
     DestinationServiceCenter := ServiceCenter_zero;
     CustomerService := {| CustomerServicePhone := EmptyString |};
     ResultCustomer := EmptyString;
     ShipZip := EmptyString;
     ConsZip := EmptyString;
     DiscountPercent := 0;
     DiscountAmount := 0;
     FuelSurchargePercent := 0;
     FuelSurchargeAmount := 0;
     NetCharge := 0;
     Tarrif := EmptyString;
     PricingEffectiveDate := EmptyString;
     QuoteID := EmptyString;
     RateDetails := [] |}.

Definition RateQuoteResponse_zero : RateQuoteResponse :=
  {| RateQuoteResponse_XMLName := xml_Name_zero;
     RQ_CreateResult := RateQuoteResponseResult_zero |}.

(** ** Types as [encoding/xml] sees them

    [xml.Marshal] takes an [interface{}]: the request arrives with its
    dynamic type, and the encoder reads the fields of that type and their
    [xml:] struct tags by reflection.  A struct type is the list of its
    fields in declaration order, each with its Go name, its [xml:] tag (the
    empty string when the field declares none) and its type. *)
Inductive go_type : Type :=
| T_string
| T_uint
| T_float64
| T_xml_Name
| T_slice (elem : go_type)
| T_struct (fields : list field)
with field : Type :=
| Field (name tag : string) (type : go_type).

Definition tagged (name tag : string) (t : go_type) : field := Field name tag t.

Definition untagged (name : string) (t : go_type) : field :=
  Field name EmptyString t.

Fixpoint field_tag (fields : list field) (name : string) : option string :=
  match fields with
  | [] => None
  | Field f tag _ :: rest =>
      if String.eqb f name then Some tag else field_tag rest name
  end.

(** The [xml:] tag a struct type declares for a field. *)
Definition struct_tag (t : go_type) (name : string) : option string :=
  match t with
  | T_struct fields => field_tag fields name
  | _ => None
  end.

Definition PickupRequestShipperInformation_type : go_type :=
  T_struct
    [ untagged "ShipperCode" T_string;
      untagged "ShipperName" T_string;
      untagged "ShipperAddress1" T_string;
      untagged "ShipperAddress2" T_string;
      untagged "ShipperCity" T_string;
      untagged "ShipperState" T_string;
      untagged "ShipperZipcode" T_string;
      untagged "ShipperContactName" T_string;
      untagged "ShipperContactTelephone" T_string;
      untagged "ShipperContactEmail" T_string;
      untagged "ShipperReadyTime" T_string;
      untagged "ShipperCloseTime" T_string;
      untagged "PickupDate" T_string;
      untagged "ThirdParty" T_string;
      untagged "ThirdPartyName" T_string;
      untagged "ThirdPartyContactName" T_string;
      untagged "ThirdPartyContactTelephone" T_string;
      untagged "ThirdPartyContactEmail" T_string;
      untagged "WardAssuredContactName" T_string;
      untagged "WardAssuredContactTelephone" T_string;
      untagged "WardAssuredContactEmail" T_string;
      untagged "ShipperRestriction" T_string;
      untagged "DriverNote1" T_string;
      untagged "DriverNote2" T_string;
      untagged "DriverNote3" T_string;
      untagged "RequestOrigin" T_string;
      untagged "RequestorUser" T_string;
      untagged "RequestorRole" T_string;
      untagged "RequestorContactName" T_string;
      untagged "RequestorContactTelephone" T_string;
      untagged "RequestorContactEmail" T_string ].

Definition PickupRequestShipment_type : go_type :=
  T_struct
    [ untagged "Pieces" T_uint;
      untagged "PackageCode" T_string;
      untagged "Weight" T_uint;
      untagged "ConsigneeCode" T_string;
      untagged "ConsigneeName" T_string;
      untagged "ConsigneeAddress1" T_string;
      untagged "ConsigneeAddress2" T_string;
      untagged "ConsigneeCity" T_string;
      untagged "ConsigneeState" T_string;
      untagged "ConsigneeZipcode" T_string;
      untagged "ShipperRoutingSCAC" T_string;
      untagged "Hazardous" T_string;
      untagged "Freezable" T_string;
      untagged "DeliveryAppntFlag" T_string;
      untagged "DeliveryAppntDate" T_string;
      untagged "WardAssured12PM" T_string;
      untagged "WardAssured03PM" T_string;
      untagged "WardAssuredTimeDefinite" T_string;
      untagged "WardAssuredTimeDefiniteStart" T_string;
      untagged "WardAssuredTimeDefiniteEnd" T_string;
      untagged "FullValue" T_string;
      untagged "FullValueInsuredAmount" T_string;
      untagged "NonStandardSize" T_string;
      untagged "NonStandardSizeDescription" T_string;
      untagged "RequestorReference" T_string;
      untagged "PickupShipmentInstruction1" T_string;
      untagged "PickupShipmentInstruction2" T_string;
      untagged "PickupShipmentInstruction3" T_string;
      untagged "PickupShipmentInstruction4" T_string;
      untagged "RequestOrigin" T_string ].

Definition PickupRequest_type : go_type :=
  T_struct
    [ tagged "XMLName" "soap12:Envelope" T_xml_Name;
      tagged "XsiAttr" "xmlns:xsi,attr" T_string;
      tagged "XsdAttr" "xmlns:xsd,attr" T_string;
      tagged "Soap12Attr" "xmlns:soap12,attr" T_string;
      tagged "ShipperInfo" "soap12:Body>request>ShipperInformation"
             PickupRequestShipperInformation_type;
      tagged "Shipment" "soap12:Body>request>Shipment" PickupRequestShipment_type ].

Definition RateQuoteDetailItem_type : go_type :=
  T_struct
    [ tagged "Weight" "Weight" T_uint;
      tagged "Pieces" "Pieces" T_uint;
      tagged "Class" "Class" T_uint ].

Definition RateQuoteAccessorialItem_type : go_type :=
  T_struct
    [ tagged "Code" "Code" T_string;
      tagged "Description" "Description,omitempty" T_string;
      tagged "Amount" "Amount,omitempty" T_float64 ].

Definition RateQuoteRequestInner_type : go_type :=
  T_struct
    [ tagged "Details" "Details>DetailItem" (T_slice RateQuoteDetailItem_type);
      tagged "Accessorials" "Accessorials>AccessorialItem"
             (T_slice RateQuoteAccessorialItem_type);
      tagged "BillingTerms" "BillingTerms" T_string;
      tagged "OriginCity" "OriginCity" T_string;
      tagged "OriginState" "OriginState" T_string;
      tagged "OriginZipcode" "OriginZipcode" T_string;
      tagged "DestinationCity" "DestinationCity" T_string;
      tagged "DestinationState" "DestinationState" T_string;
      tagged "DestinationZipcode" "DestinationZipcode" T_string;
      tagged "PalletCount" "PalletCount" T_uint;
      tagged "Customer" "Customer" T_string ].

Definition RateQuoteRequest_type : go_type :=
  T_struct
    [ tagged "XMLName" "soap12:Envelope" T_xml_Name;
      tagged "XsiAttr" "xmlns:xsi,attr" T_string;
      tagged "XsdAttr" "xmlns:xsd,attr" T_string;
      tagged "Soap12Attr" "xmlns:soap12,attr" T_string;
      tagged "Request" "soap12:Body>request" RateQuoteRequestInner_type ].

(** ** The outside world

    [map[string]interface{}]: keys with the printed form of their values;
    the nil map is the empty list. *)
Definition interface_map : Type := list (string * string).

(** [*http.Response]: what [ioutil.ReadAll] gets out of its [Body]. *)
Record http_Response : Type := {
  Body : string * option error
}.

(** [http.Client] *)
Record http_Client : Type := {
  Timeout : Duration
}.

(** What the package does to the outside, in program order. *)
Inductive event : Type :=
| HTTPPost (client : http_Client) (url contentType body : string)
| BodyReadAll
| BodyClose
| LogPrintln (v : string)
| LogPrintf (format : string)
| LogPrintlnMap (v : interface_map).

(** The library functions the package calls.  [xml.Marshal] and
    [xml.Unmarshal] work by reflection on the static type of their
    argument, hence one field per type; [xml.Marshal] is handed the
    description of the type next to the value; [xml.Unmarshal] fills the
    value its pointer argument designates and returns an error.  The
    answer of the network may depend on everything that happened before. *)
Record Env : Type := {
  xml_Marshal_PickupRequest_typed :
    go_type -> PickupRequest -> string * option error;
  xml_Marshal_RateQuoteRequest_typed :
    go_type -> RateQuoteRequest -> string * option error;
  http_Post : list event -> http_Client -> string -> string -> string ->
              http_Response + error;
  xml_Unmarshal_PickupRequestResponse :
    string -> PickupRequestResponse -> PickupRequestResponse * option error;
  xml_Unmarshal_RateQuoteResponse :
    string -> RateQuoteResponse -> RateQuoteResponse * option error;
  xml_Unmarshal_map : string -> interface_map -> interface_map * option error
}.

(** [xml.Marshal(p)] for a receiver [p] of type [*PickupRequest], and for
    one of type [*RateQuoteRequest]: the encoder gets the declared type of
    the request and the request. *)
Definition xml_Marshal_PickupRequest (env : Env) (p : PickupRequest)
  : string * option error :=
  xml_Marshal_PickupRequest_typed env PickupRequest_type p.

Definition xml_Marshal_RateQuoteRequest (env : Env) (p : RateQuoteRequest)
  : string * option error :=
  xml_Marshal_RateQuoteRequest_typed env RateQuoteRequest_type p.

(** Package-level variables, and the trace of events so far. *)
Record World : Type := {
  pickupRequestURL : string;
  timeout : Duration;
  trace : list event
}.

(** The state of a process that has only initialised the package. *)
Definition init : World :=
  {| pickupRequestURL := pickupRequestTestURL;
     timeout := int64_mul 10 time_Second;
     trace := [] |}.

(** ** A state monad over [World] *)

Definition M (A : Type) : Type := World -> A * World.

Definition ret {A : Type} (a : A) : M A := fun w => (a, w).

Definition bind {A B : Type} (m : M A) (k : A -> M B) : M B :=
  fun w => let (a, w') := m w in k a w'.

Declare Scope ward_scope.
Delimit Scope ward_scope with ward.
Notation "x <- m ;; k" := (bind m (fun x => k))
  (at level 61, m at next level, right associativity) : ward_scope.
Notation "m ;; k" := (bind m (fun _ => k))
  (at level 61, right associativity) : ward_scope.
Local Open Scope ward_scope.

Definition emit (ev : event) : M unit :=
  fun w => (tt, {| pickupRequestURL := pickupRequestURL w;
                   timeout := timeout w;
                   trace := trace w ++ [ev] |}).

Definition read_timeout : M Duration := fun w => (timeout w, w).

Definition read_pickupRequestURL : M string := fun w => (pickupRequestURL w, w).

(** ** Configuration *)

(** [SetProductionMode] chooses the production url for use. *)
Definition SetProductionMode (yes : bool) : M unit :=
  fun w => (tt, {| pickupRequestURL := pickupRequestProductionURL;
                   timeout := timeout w;
                   trace := trace w |}).

(** [SetTimeout] updates the timeout value to something the user sets. *)
Definition SetTimeout (seconds : Duration) : M unit :=
  fun w => (tt, {| pickupRequestURL := pickupRequestURL w;
                   timeout := int64_mul seconds time_Second;
                   trace := trace w |}).

(** ** The two operations *)

Section Operations.

Variable env : Env.

(** [httpClient.Post(url, contentType, body)]: one request goes out, and
    the network answers with a response or with an error. *)
Definition Post (c : http_Client) (url contentType body : string)
  : M (http_Response + error) :=
  fun w =>
    let r := http_Post env (trace w) c url contentType body in
    (r, {| pickupRequestURL := pickupRequestURL w;
           timeout := timeout w;
           trace := trace w ++ [HTTPPost c url contentType body] |}).

(** [ioutil.ReadAll(res.Body)] *)
Definition ioutil_ReadAll (res : http_Response) : M (string * option error) :=
  emit BodyReadAll ;; ret (Body res).

(** Receiver assignments [p.XsdAttr = ...], [p.XsiAttr = ...],
    [p.Soap12Attr = ...]. *)
Definition set_XsdAttr (p : PickupRequest) (v : string) : PickupRequest :=
  {| XMLName := XMLName p; XsiAttr := XsiAttr p; XsdAttr := v;
     Soap12Attr := Soap12Attr p; ShipperInfo := ShipperInfo p;
     Shipment := Shipment p |}.

Definition set_XsiAttr (p : PickupRequest) (v : string) : PickupRequest :=
  {| XMLName := XMLName p; XsiAttr := v; XsdAttr := XsdAttr p;
     Soap12Attr := Soap12Attr p; ShipperInfo := ShipperInfo p;
     Shipment := Shipment p |}.

Definition set_Soap12Attr (p : PickupRequest) (v : string) : PickupRequest :=
  {| XMLName := XMLName p; XsiAttr := XsiAttr p; XsdAttr := XsdAttr p;
     Soap12Attr := v; ShipperInfo := ShipperInfo p;
     Shipment := Shipment p |}.

Definition set_RQ_XsdAttr (p : RateQuoteRequest) (v : string) : RateQuoteRequest :=
  {| RQ_XMLName := RQ_XMLName p; RQ_XsiAttr := RQ_XsiAttr p; RQ_XsdAttr := v;
     RQ_Soap12Attr := RQ_Soap12Attr p; Request := Request p |}.

Definition set_RQ_XsiAttr (p : RateQuoteRequest) (v : string) : RateQuoteRequest :=
  {| RQ_XMLName := RQ_XMLName p; RQ_XsiAttr := v; RQ_XsdAttr := RQ_XsdAttr p;
     RQ_Soap12Attr := RQ_Soap12Attr p; Request := Request p |}.

Definition set_RQ_Soap12Attr (p : RateQuoteRequest) (v : string) : RateQuoteRequest :=
  {| RQ_XMLName := RQ_XMLName p; RQ_XsiAttr := RQ_XsiAttr p;
     RQ_XsdAttr := RQ_XsdAttr p; RQ_Soap12Attr := v; Request := Request p |}.

(** [RequestPickup] performs the call to the Ward API to schedule a
    pickup.  The receiver is a pointer, taken to be non-nil: the result
    carries the request as the call leaves it, next to the two named
    results [responseData] and [err].  [defer res.Body.Close()] is registered right after the body was
    read, so [BodyClose] is the last event of every path that got a
    response. *)
Definition RequestPickup (p : PickupRequest)
  : M (PickupRequest * (PickupRequestResponse * option error)) :=
  let responseData := PickupRequestResponse_zero in
  let p := set_XsdAttr p xsdAttr in
  let p := set_XsiAttr p xsiAttr in
  let p := set_Soap12Attr p soap12Attr in
  let (xmlBytes, err) := xml_Marshal_PickupRequest env p in
  match err with
  | Some _ =>
      ret (p, (responseData,
               errors_Wrap err "ward.RequestPickup - could not marshal xml"))
  | None =>
      let xmlString := xml_Header ++ xmlBytes ++ nl in
      t <- read_timeout ;;
      let httpClient := {| Timeout := t |} in
      url <- read_pickupRequestURL ;;
      r <- Post httpClient url "application/x-www-form-encoded" xmlString ;;
      match r with
      | inr e =>
          ret (p, (responseData,
                   errors_Wrap (Some e) "ward.RequestPickup - could not make post request"))
      | inl res =>
          rd <- ioutil_ReadAll res ;;
          let (body, err) := rd in
          out <-
            match err with
            | Some _ =>
                ret (responseData,
                     errors_Wrap err "ward.RequestPickup - could not read response 1")
            | None =>
                let (responseData, err) :=
                  xml_Unmarshal_PickupRequestResponse env body responseData in
                match err with
                | Some _ =>
                    ret (responseData,
                         errors_Wrap err "ward.RequestPickup - could not read response 2")
                | None =>
                    if String.eqb (PickupConfirmation (CreateResult responseData))
                                  EmptyString
                    then
                      emit (LogPrintln "ward.RequestPickup - pickup request failed") ;;
                      emit (LogPrintf body) ;;
                      let errorData : interface_map := [] in
                      let (errorData, _) := xml_Unmarshal_map env body errorData in
                      let err := errors_New "ward.RequestPickup - pickup request failed" in
                      emit (LogPrintlnMap errorData) ;;
                      ret (responseData, err)
                    else
                      ret (responseData, None)
                end
            end ;;
          emit BodyClose ;;
          ret (p, out)
      end
  end.

(** [RateQuote] performs the call to the Ward API to get a rate quote. *)
Definition RateQuote (p : RateQuoteRequest)
  : M (RateQuoteRequest * (RateQuoteResponse * option error)) :=
  let responseData := RateQuoteResponse_zero in
  let p := set_RQ_XsdAttr p xsdAttr in
  let p := set_RQ_XsiAttr p xsiAttr in
  let p := set_RQ_Soap12Attr p soap12Attr in
  let (xmlBytes, err) := xml_Marshal_RateQuoteRequest env p in
  match err with
  | Some _ =>
      ret (p, (responseData,
               errors_Wrap err "ward.RateQuote - could not marshal xml"))
  | None =>
      let xmlString := xml_Header ++ xmlBytes ++ nl in
      t <- read_timeout ;;
      let httpClient := {| Timeout := t |} in
      r <- Post httpClient rateQuoteURL "application/x-www-form-encoded" xmlString ;;
      match r with
      | inr e =>
          ret (p, (responseData,
                   errors_Wrap (Some e) "ward.RateQuote - could not make post request"))
      | inl res =>
          rd <- ioutil_ReadAll res ;;
          let (body, err) := rd in
          out <-
            match err with
            | Some _ =>
                ret (responseData,
                     errors_Wrap err "ward.RateQuote - could not read response 1")
            | None =>
                let (responseData, err) :=
                  xml_Unmarshal_RateQuoteResponse env body responseData in
                match err with
                | Some _ =>
                    ret (responseData,
                         errors_Wrap err "ward.RateQuote - could not read response 2")
                | None => ret (responseData, None)
                end
            end ;;
          emit BodyClose ;;
          ret (p, out)
      end
  end.

(** ** Callers

    What a client of the package can do: the four exported functions. *)
Inductive call : Type :=
| CallSetProductionMode (yes : bool)
| CallSetTimeout (seconds : Duration)
| CallRequestPickup (p : PickupRequest)
| CallRateQuote (p : RateQuoteRequest).

Definition run_call (c : call) (w : World) : World :=
  match c with
  | CallSetProductionMode yes => snd (SetProductionMode yes w)
  | CallSetTimeout seconds => snd (SetTimeout seconds w)
  | CallRequestPickup p => snd (RequestPickup p w)
  | CallRateQuote p => snd (RateQuote p w)
  end.

Fixpoint run_calls (cs : list call) (w : World) : World :=
  match cs with
  | [] => w
  | c :: rest => run_calls rest (run_call c w)
  end.

End Operations.

(** ** Observations on traces and results *)

(** The request as the operations leave it: the three namespace
    attributes hold the fixed URIs. *)
Definition with_fixed_attrs (p : PickupRequest) : PickupRequest :=
  {| XMLName := XMLName p; XsiAttr := xsiAttr; XsdAttr := xsdAttr;
     Soap12Attr := soap12Attr; ShipperInfo := ShipperInfo p;
     Shipment := Shipment p |}.

Definition RQ_with_fixed_attrs (p : RateQuoteRequest) : RateQuoteRequest :=
  {| RQ_XMLName := RQ_XMLName p; RQ_XsiAttr := xsiAttr; RQ_XsdAttr := xsdAttr;
     RQ_Soap12Attr := soap12Attr; Request := Request p |}.

Definition is_post (ev : event) : bool :=
  match ev with
  | HTTPPost _ _ _ _ => true
  | _ => false
  end.

(** The HTTP requests of a trace, oldest first. *)
Definition posts (t : list event) : list event := filter is_post t.

Definition post_url (ev : event) : string :=
  match ev with HTTPPost _ url _ _ => url | _ => EmptyString end.

Definition post_contentType (ev : event) : string :=
  match ev with HTTPPost _ _ ct _ => ct | _ => EmptyString end.

Definition post_body (ev : event) : string :=
  match ev with HTTPPost _ _ _ body => body | _ => EmptyString end.

Definition post_timeout (ev : event) : Duration :=
  match ev with HTTPPost c _ _ _ => Timeout c | _ => 0 end.

(** The request [RequestPickup] posts from world [w] once marshalling
    succeeded, and the one [RateQuote] posts. *)
Definition pickup_post (env : Env) (p : PickupRequest) (w : World) : event :=
  HTTPPost {| Timeout := timeout w |} (pickupRequestURL w)
           "application/x-www-form-encoded"
           (xml_Header ++ fst (xml_Marshal_PickupRequest env (with_fixed_attrs p)) ++ nl).

Definition quote_post (env : Env) (p : RateQuoteRequest) (w : World) : event :=
  HTTPPost {| Timeout := timeout w |} rateQuoteURL
           "application/x-www-form-encoded"
           (xml_Header ++ fst (xml_Marshal_RateQuoteRequest env (RQ_with_fixed_attrs p)) ++ nl).

(** What the network answers to those requests. *)
Definition pickup_answer (env : Env) (p : PickupRequest) (w : World)
  : http_Response + error :=
  http_Post env (trace w) {| Timeout := timeout w |} (pickupRequestURL w)
            "application/x-www-form-encoded"
            (xml_Header ++ fst (xml_Marshal_PickupRequest env (with_fixed_attrs p)) ++ nl).

Definition quote_answer (env : Env) (p : RateQuoteRequest) (w : World)
  : http_Response + error :=
  http_Post env (trace w) {| Timeout := timeout w |} rateQuoteURL
            "application/x-www-form-encoded"
            (xml_Header ++ fst (xml_Marshal_RateQuoteRequest env (RQ_with_fixed_attrs p)) ++ nl).

(** Only [SetProductionMode] and [SetTimeout] are configuration calls. *)
Definition is_request (c : call) : bool :=
  match c with
  | CallRequestPickup _ | CallRateQuote _ => true
  | CallSetProductionMode _ | CallSetTimeout _ => false
  end.

(** ** A stub of the outside world

    A marshaller that writes a fixed envelope, a network that always
    answers with the body it was configured with, and parsers that know
    three bodies: the success body, a result without confirmation, and
    anything else, which they reject. *)

Module Stub.

Definition success_body : string :=
  "<Envelope><Body><CreateResponse><CreateResult><PickupConfirmation>ABC123</PickupConfirmation></CreateResult></CreateResponse></Body></Envelope>".

Definition failure_body : string :=
  "<Envelope><Body><CreateResponse><CreateResult><Message>NO PICKUP</Message></CreateResult></CreateResponse></Body></Envelope>".

Definition quote_body : string :=
  "<Envelope><Body><CreateResponse><CreateResult></CreateResult></CreateResponse></Body></Envelope>".

Definition envelope : xml_Name :=
  {| Space := EmptyString; Local := "Envelope" |}.

Definition result_of (confirmation message : string) : PickupRequestResponse :=
  {| PickupRequestResponse_XMLName := envelope;
     CreateResult :=
       {| PickupConfirmation := confirmation;
          Message := message;
          PickupTerminal := EmptyString;
          WardTelephone := EmptyString;
          WardEmail := EmptyString |} |}.

Definition parse_pickup (body : string) (v : PickupRequestResponse)
  : PickupRequestResponse * option error :=
  if String.eqb body success_body then (result_of "ABC123" EmptyString, None)
  else if String.eqb body failure_body then (result_of EmptyString "NO PICKUP", None)
  else (v, Some (ExternalError "EOF")).

Definition parse_quote (body : string) (v : RateQuoteResponse)
  : RateQuoteResponse * option error :=
  if String.eqb body quote_body
  then ({| RateQuoteResponse_XMLName := envelope;
           RQ_CreateResult := RateQuoteResponseResult_zero |}, None)
  else (v, Some (ExternalError "EOF")).

Definition env (answer : string) : Env :=
  {| xml_Marshal_PickupRequest_typed :=
       fun _ _ => ("<soap12:Envelope></soap12:Envelope>", None);
     xml_Marshal_RateQuoteRequest_typed :=
       fun _ _ => ("<soap12:Envelope></soap12:Envelope>", None);
     http_Post := fun _ _ _ _ _ => inl {| Body := (answer, None) |};
     xml_Unmarshal_PickupRequestResponse := parse_pickup;
     xml_Unmarshal_RateQuoteResponse := parse_quote;
     xml_Unmarshal_map := fun _ v => (v, Some (ExternalError "unknown type map[string]interface {}")) |}.

Definition shipper : PickupRequestShipperInformation :=
  {| ShipperCode := "12345"; ShipperName := EmptyString;
     ShipperAddress1 := EmptyString; ShipperAddress2 := EmptyString;
     ShipperCity := EmptyString; ShipperState := EmptyString;
     ShipperZipcode := "19103"; ShipperContactName := EmptyString;
     ShipperContactTelephone := EmptyString; ShipperContactEmail := EmptyString;
     ShipperReadyTime := EmptyString; ShipperCloseTime := EmptyString;
     PickupDate := EmptyString; ThirdParty := EmptyString;
     ThirdPartyName := EmptyString; ThirdPartyContactName := EmptyString;
     ThirdPartyContactTelephone := EmptyString;
     ThirdPartyContactEmail := EmptyString;
     WardAssuredContactName := EmptyString;
     WardAssuredContactTelephone := EmptyString;
     WardAssuredContactEmail := EmptyString; ShipperRestriction := EmptyString;
     DriverNote1 := EmptyString; DriverNote2 := EmptyString;
     DriverNote3 := EmptyString; RequestOrigin := EmptyString;
     RequestorUser := EmptyString; RequestorRole := EmptyString;
     RequestorContactName := EmptyString;
     RequestorContactTelephone := EmptyString;
     RequestorContactEmail := EmptyString |}.

Definition shipment : PickupRequestShipment :=
  {| Pieces := 3%N; PackageCode := EmptyString; Weight := 500%N;
     ConsigneeCode := EmptyString; ConsigneeName := EmptyString;
     ConsigneeAddress1 := EmptyString; ConsigneeAddress2 := EmptyString;
     ConsigneeCity := EmptyString; ConsigneeState := EmptyString;
     ConsigneeZipcode := "60601"; ShipperRoutingSCAC := EmptyString;
     Hazardous := EmptyString; Freezable := EmptyString;
     DeliveryAppntFlag := EmptyString; DeliveryAppntDate := EmptyString;
     WardAssured12PM := EmptyString; WardAssured03PM := EmptyString;
     WardAssuredTimeDefinite := EmptyString;
     WardAssuredTimeDefiniteStart := EmptyString;
     WardAssuredTimeDefiniteEnd := EmptyString; FullValue := EmptyString;
     FullValueInsuredAmount := EmptyString; NonStandardSize := EmptyString;
     NonStandardSizeDescription := EmptyString;
     RequestorReference := EmptyString;
     PickupShipmentInstruction1 := EmptyString;
     PickupShipmentInstruction2 := EmptyString;
     PickupShipmentInstruction3 := EmptyString;
     PickupShipmentInstruction4 := EmptyString;
     ShipmentRequestOrigin := EmptyString |}.

(** A pickup request whose caller put values of their own in the
    namespace attributes. *)
Definition pickup : PickupRequest :=
  {| XMLName := xml_Name_zero; XsiAttr := "mine"; XsdAttr := EmptyString;
     Soap12Attr := EmptyString; ShipperInfo := shipper; Shipment := shipment |}.

Definition quote : RateQuoteRequest :=
  {| RQ_XMLName := xml_Name_zero; RQ_XsiAttr := EmptyString;
     RQ_XsdAttr := EmptyString; RQ_Soap12Attr := EmptyString;
     Request :=
       {| Details := [ {| DetailWeight := 500%N; DetailPieces := 3%N;
                          DetailClass := 50%N |} ];
          Accessorials := [];
          BillingTerms := EmptyString;
          OriginCity := EmptyString; OriginState := EmptyString;
          OriginZipcode := "19103";
          DestinationCity := EmptyString; DestinationState := EmptyString;
          DestinationZipcode := "60601";
          PalletCount := 3%N; Customer := "12345" |} |}.

End Stub.

(** ** Further observations *)

Definition is_log (ev : event) : bool :=
  match ev with
  | LogPrintln _ | LogPrintf _ | LogPrintlnMap _ => true
  | _ => false
  end.

(** What went to the process-wide logger, oldest first. *)
Definition logs (t : list event) : list event := filter is_log t.

(** Whether a call gets as far as posting: a request call whose request
    marshals. *)
Definition sends (env : Env) (c : call) : bool :=
  match c with
  | CallRequestPickup p =>
      match snd (xml_Marshal_PickupRequest env (with_fixed_attrs p)) with
      | None => true
      | Some _ => false
      end
  | CallRateQuote q =>
      match snd (xml_Marshal_RateQuoteRequest env (RQ_with_fixed_attrs q)) with
      | None => true
      | Some _ => false
      end
  | CallSetProductionMode _ | CallSetTimeout _ => false
  end.

(** The two configuration calls, told apart. *)
Definition sets_timeout (c : call) : bool :=
  match c with
  | CallSetTimeout _ => true
  | _ => false
  end.

Definition sets_production (c : call) : bool :=
  match c with
  | CallSetProductionMode _ => true
  | _ => false
  end.

(** The stage messages of the two operations. *)
Definition pickup_stage_messages : list string :=
  [ "ward.RequestPickup - could not marshal xml";
    "ward.RequestPickup - could not make post request";
    "ward.RequestPickup - could not read response 1";
    "ward.RequestPickup - could not read response 2" ].

Definition quote_stage_messages : list string :=
  [ "ward.RateQuote - could not marshal xml";
    "ward.RateQuote - could not make post request";
    "ward.RateQuote - could not read response 1";
    "ward.RateQuote - could not read response 2" ].

(** ** Stubs that fail

    The stub of above with one stage broken: a marshaller that refuses, a
    network that times out, a body that breaks off while being read. *)

Module Faults.

Definition marshal_fails : Env :=
  {| xml_Marshal_PickupRequest_typed :=
       fun _ _ => (EmptyString, Some (ExternalError "xml: unsupported type"));
     xml_Marshal_RateQuoteRequest_typed :=
       fun _ _ => (EmptyString, Some (ExternalError "xml: unsupported type"));
     http_Post := http_Post (Stub.env Stub.success_body);
     xml_Unmarshal_PickupRequestResponse := Stub.parse_pickup;
     xml_Unmarshal_RateQuoteResponse := Stub.parse_quote;
     xml_Unmarshal_map := xml_Unmarshal_map (Stub.env Stub.success_body) |}.

Definition post_fails : Env :=
  {| xml_Marshal_PickupRequest_typed :=
       xml_Marshal_PickupRequest_typed (Stub.env Stub.success_body);
     xml_Marshal_RateQuoteRequest_typed :=
       xml_Marshal_RateQuoteRequest_typed (Stub.env Stub.success_body);
     http_Post := fun _ _ _ _ _ => inr (ExternalError "Client.Timeout exceeded");
     xml_Unmarshal_PickupRequestResponse := Stub.parse_pickup;
     xml_Unmarshal_RateQuoteResponse := Stub.parse_quote;
     xml_Unmarshal_map := xml_Unmarshal_map (Stub.env Stub.success_body) |}.

(** The part of the body that arrived is the whole success body; the read
    still reports an error. *)
Definition read_fails : Env :=
  {| xml_Marshal_PickupRequest_typed :=
       xml_Marshal_PickupRequest_typed (Stub.env Stub.success_body);
     xml_Marshal_RateQuoteRequest_typed :=
       xml_Marshal_RateQuoteRequest_typed (Stub.env Stub.success_body);
     http_Post := fun _ _ _ _ _ =>
       inl {| Body := (Stub.success_body, Some (ExternalError "unexpected EOF")) |};
     xml_Unmarshal_PickupRequestResponse := Stub.parse_pickup;
     xml_Unmarshal_RateQuoteResponse := Stub.parse_quote;
     xml_Unmarshal_map := xml_Unmarshal_map (Stub.env Stub.success_body) |}.

(** [Stub.pickup] and [Stub.quote] with other values in the namespace
    attributes. *)
Definition pickup_other_attrs : PickupRequest :=
  {| XMLName := XMLName Stub.pickup;
     XsiAttr := EmptyString; XsdAttr := "urn:x"; Soap12Attr := "urn:y";
     ShipperInfo := ShipperInfo Stub.pickup; Shipment := Shipment Stub.pickup |}.

Definition quote_other_attrs : RateQuoteRequest :=
  {| RQ_XMLName := RQ_XMLName Stub.quote;
     RQ_XsiAttr := "urn:z"; RQ_XsdAttr := "urn:x"; RQ_Soap12Attr := "urn:y";
     Request := Request Stub.quote |}.

End Faults.

(** ** Proof steps

    [step_monad] runs the monad one layer; [frame_done] closes a path of an
    operation once its trace is explicit. *)

Ltac step_monad :=
  unfold bind, ret, Post, ioutil_ReadAll, emit, read_timeout,
         read_pickupRequestURL, errors_New;
  cbn [fst snd trace timeout pickupRequestURL].

Ltac frame_done :=
  cbn [fst snd trace timeout pickupRequestURL];
  unfold posts; rewrite ?filter_app; cbn [filter is_post];
  rewrite ?app_nil_r; repeat split; reflexivity.

(** ** Sanity checks on the stub *)

Example pickup_success :
  snd (fst (RequestPickup (Stub.env Stub.success_body) Stub.pickup init))
  = (Stub.result_of "ABC123" EmptyString, None).
Proof. reflexivity. Qed.

Example pickup_success_trace :
  trace (snd (RequestPickup (Stub.env Stub.success_body) Stub.pickup init))
  = [ HTTPPost {| Timeout := 10000000000 |} pickupRequestTestURL
               "application/x-www-form-encoded"
               (xml_Header ++ "<soap12:Envelope></soap12:Envelope>" ++ nl);
      BodyReadAll; BodyClose ].
Proof. reflexivity. Qed.

Example pickup_failure_trace :
  trace (snd (RequestPickup (Stub.env Stub.failure_body) Stub.pickup init))
  = [ pickup_post (Stub.env Stub.failure_body) Stub.pickup init;
      BodyReadAll;
      LogPrintln "ward.RequestPickup - pickup request failed";
      LogPrintf Stub.failure_body;
      LogPrintlnMap [];
      BodyClose ].
Proof. reflexivity. Qed.

Example time_Second_value : time_Second = 1000000000.
Proof. reflexivity. Qed.

Example xml_Header_shape :
  String.length xml_Header = 39%nat /\ String.get 38 xml_Header = Some "010"%char.
Proof. split; reflexivity. Qed.

Example declared_tags_agree :
  map (struct_tag PickupRequest_type) (map fst PickupRequest_tags)
  = map (fun ft => Some (snd ft)) PickupRequest_tags /\
  map (struct_tag RateQuoteRequest_type) (map fst RateQuoteRequest_tags)
  = map (fun ft => Some (snd ft)) RateQuoteRequest_tags.
Proof. split; reflexivity. Qed.

(** ** Shared lemmas *)

Lemma posts_app (t1 t2 : list event) : posts (t1 ++ t2) = (posts t1 ++ posts t2)%list.
Proof. apply filter_app. Qed.

Lemma receiver_attrs (p : PickupRequest) :
  set_Soap12Attr (set_XsiAttr (set_XsdAttr p xsdAttr) xsiAttr) soap12Attr
  = with_fixed_attrs p.
Proof. reflexivity. Qed.

Lemma RQ_receiver_attrs (p : RateQuoteRequest) :
  set_RQ_Soap12Attr (set_RQ_XsiAttr (set_RQ_XsdAttr p xsdAttr) xsiAttr) soap12Attr
  = RQ_with_fixed_attrs p.
Proof. reflexivity. Qed.

(** [RequestPickup] when marshalling fails: nothing goes out. *)
Lemma RequestPickup_marshal_error env p w xmlBytes e :
  xml_Marshal_PickupRequest env (with_fixed_attrs p) = (xmlBytes, Some e) ->
  RequestPickup env p w
  = (with_fixed_attrs p,
     (PickupRequestResponse_zero,
      Some (WrapError e "ward.RequestPickup - could not marshal xml")), w).
Proof.
  intros Hm. unfold RequestPickup. rewrite receiver_attrs, Hm. reflexivity.
Qed.

(** [RequestPickup] once a response body was read without error: the
    outcome is decided by the parser and the confirmation check. *)
Lemma RequestPickup_body env p w xmlBytes res body :
  xml_Marshal_PickupRequest env (with_fixed_attrs p) = (xmlBytes, None) ->
  pickup_answer env p w = inl res ->
  Body res = (body, None) ->
  RequestPickup env p w
  = let (responseData, err) :=
      xml_Unmarshal_PickupRequestResponse env body PickupRequestResponse_zero in
    let sent := (trace w ++ [pickup_post env p w] ++ [BodyReadAll])%list in
    let world (evs : list event) :=
      {| pickupRequestURL := pickupRequestURL w; timeout := timeout w;
         trace := (sent ++ evs ++ [BodyClose])%list |} in
    match err with
    | Some e =>
        (with_fixed_attrs p,
         (responseData,
          Some (WrapError e "ward.RequestPickup - could not read response 2")),
         world [])
    | None =>
        if String.eqb (PickupConfirmation (CreateResult responseData)) EmptyString
        then (with_fixed_attrs p,
              (responseData,
               Some (NewError "ward.RequestPickup - pickup request failed")),
              world [ LogPrintln "ward.RequestPickup - pickup request failed";
                      LogPrintf body;
                      LogPrintlnMap (fst (xml_Unmarshal_map env body [])) ])
        else (with_fixed_attrs p, (responseData, None), world [])
    end.
Proof.
  intros Hm Hpost Hbody.
  unfold pickup_answer, pickup_post in *. rewrite Hm in *. cbn [fst] in *.
  unfold RequestPickup. rewrite receiver_attrs, Hm. step_monad.
  rewrite Hpost. step_monad. rewrite Hbody.
  destruct (xml_Unmarshal_PickupRequestResponse env body PickupRequestResponse_zero)
    as [responseData [e|]].
  - cbn. rewrite <- !app_assoc. reflexivity.
  - destruct (String.eqb (PickupConfirmation (CreateResult responseData)) EmptyString).
    + step_monad. destruct (xml_Unmarshal_map env body []) as [errorData ignored].
      cbn. rewrite <- !app_assoc. reflexivity.
    + cbn. rewrite <- !app_assoc. reflexivity.
Qed.

(** [RateQuote] once a response body was read without error: the outcome
    is the parser's. *)
Lemma RateQuote_body env p w xmlBytes res body :
  xml_Marshal_RateQuoteRequest env (RQ_with_fixed_attrs p) = (xmlBytes, None) ->
  quote_answer env p w = inl res ->
  Body res = (body, None) ->
  RateQuote env p w
  = let (responseData, err) :=
      xml_Unmarshal_RateQuoteResponse env body RateQuoteResponse_zero in
    (RQ_with_fixed_attrs p,
     (responseData,
      errors_Wrap err "ward.RateQuote - could not read response 2"),
     {| pickupRequestURL := pickupRequestURL w; timeout := timeout w;
        trace := (trace w ++ [quote_post env p w; BodyReadAll; BodyClose])%list |}).
Proof.
  intros Hm Hpost Hbody.
  unfold quote_answer, quote_post in *. rewrite Hm in *. cbn [fst] in *.
  unfold RateQuote. rewrite RQ_receiver_attrs, Hm. step_monad.
  rewrite Hpost. step_monad. rewrite Hbody.
  destruct (xml_Unmarshal_RateQuoteResponse env body RateQuoteResponse_zero)
    as [responseData [e|]]; cbn; rewrite <- !app_assoc; reflexivity.
Qed.

(** What every path of [RequestPickup] has in common: the receiver ends
    with the fixed attributes, the package variables are not assigned, and
    the trace grows by at most one request. *)
Lemma RequestPickup_frame env p w :
  fst (fst (RequestPickup env p w)) = with_fixed_attrs p /\
  pickupRequestURL (snd (RequestPickup env p w)) = pickupRequestURL w /\
  timeout (snd (RequestPickup env p w)) = timeout w /\
  posts (trace (snd (RequestPickup env p w)))
  = (posts (trace w) ++
     match snd (xml_Marshal_PickupRequest env (with_fixed_attrs p)) with
     | None => [pickup_post env p w]
     | Some _ => []
     end)%list.
Proof.
  unfold RequestPickup, pickup_post. rewrite receiver_attrs.
  destruct (xml_Marshal_PickupRequest env (with_fixed_attrs p)) as [xmlBytes [e|]].
  - frame_done.
  - step_monad.
    destruct (http_Post env (trace w) _ _ _ _) as [[[body [e|]]]|e];
      step_monad; cbn [Body].
    + frame_done.
    + destruct (xml_Unmarshal_PickupRequestResponse env body PickupRequestResponse_zero)
        as [responseData [e|]].
      * frame_done.
      * destruct (String.eqb (PickupConfirmation (CreateResult responseData)) EmptyString).
        -- step_monad. destruct (xml_Unmarshal_map env body []) as [errorData ignored].
           frame_done.
        -- frame_done.
    + frame_done.
Qed.

Lemma RateQuote_frame env p w :
  fst (fst (RateQuote env p w)) = RQ_with_fixed_attrs p /\
  pickupRequestURL (snd (RateQuote env p w)) = pickupRequestURL w /\
  timeout (snd (RateQuote env p w)) = timeout w /\
  posts (trace (snd (RateQuote env p w)))
  = (posts (trace w) ++
     match snd (xml_Marshal_RateQuoteRequest env (RQ_with_fixed_attrs p)) with
     | None => [quote_post env p w]
     | Some _ => []
     end)%list.
Proof.
  unfold RateQuote, quote_post. rewrite RQ_receiver_attrs.
  destruct (xml_Marshal_RateQuoteRequest env (RQ_with_fixed_attrs p)) as [xmlBytes [e|]].
  - frame_done.
  - step_monad.
    destruct (http_Post env (trace w) _ _ _ _) as [[[body [e|]]]|e];
      step_monad; cbn [Body].
    + frame_done.
    + destruct (xml_Unmarshal_RateQuoteResponse env body RateQuoteResponse_zero)
        as [responseData [e|]]; frame_done.
    + frame_done.
Qed.

(** ** Pickup: the confirmation check *)

(** C1. When the response body parses and the parsed
    [CreateResult.PickupConfirmation] is the empty string, [RequestPickup]
    returns the non-nil error made by
    [errors.New("ward.RequestPickup - pickup request failed")], whose
    message is that string, next to the response as parsed: its
    confirmation is empty, whatever the other fields of the result hold. *)
Theorem RequestPickup_empty_confirmation
    env p w xmlBytes res body (responseData : PickupRequestResponse) :
  xml_Marshal_PickupRequest env (with_fixed_attrs p) = (xmlBytes, None) ->
  pickup_answer env p w = inl res ->
  Body res = (body, None) ->
  xml_Unmarshal_PickupRequestResponse env body PickupRequestResponse_zero
  = (responseData, None) ->
  PickupConfirmation (CreateResult responseData) = EmptyString ->
  snd (fst (RequestPickup env p w))
  = (responseData, Some (NewError "ward.RequestPickup - pickup request failed")) /\
  Error (NewError "ward.RequestPickup - pickup request failed")
  = "ward.RequestPickup - pickup request failed" /\
  PickupConfirmation (CreateResult (fst (snd (fst (RequestPickup env p w)))))
  = EmptyString.
Proof.
  intros Hm Hpost Hbody Hparse Hempty.
  rewrite (RequestPickup_body env p w xmlBytes res body Hm Hpost Hbody).
  rewrite Hparse, Hempty. cbn [String.eqb fst snd].
  rewrite Hempty. repeat split.
Qed.

Lemma RequestPickup_empty_confirmation_witness :
  Message (CreateResult (fst (snd (fst
    (RequestPickup (Stub.env Stub.failure_body) Stub.pickup init))))) = "NO PICKUP" /\
  snd (fst (RequestPickup (Stub.env Stub.failure_body) Stub.pickup init))
  = (Stub.result_of EmptyString "NO PICKUP",
     Some (NewError "ward.RequestPickup - pickup request failed")).
Proof.
  split; [reflexivity | ].
  apply (RequestPickup_empty_confirmation
           (Stub.env Stub.failure_body) Stub.pickup init
           "<soap12:Envelope></soap12:Envelope>"
           {| Body := (Stub.failure_body, None) |} Stub.failure_body
           (Stub.result_of EmptyString "NO PICKUP"));
    reflexivity.
Defined.

(** ** Rate quote: no success check *)

(** C5. When the response body of a rate quote parses, [RateQuote]
    returns the parsed structure with a nil error and logs nothing; no
    field of the result is inspected. *)
Theorem RateQuote_returns_parsed
    env p w xmlBytes res body (responseData : RateQuoteResponse) :
  xml_Marshal_RateQuoteRequest env (RQ_with_fixed_attrs p) = (xmlBytes, None) ->
  quote_answer env p w = inl res ->
  Body res = (body, None) ->
  xml_Unmarshal_RateQuoteResponse env body RateQuoteResponse_zero
  = (responseData, None) ->
  snd (fst (RateQuote env p w)) = (responseData, None) /\
  trace (snd (RateQuote env p w))
  = (trace w ++ [quote_post env p w; BodyReadAll; BodyClose])%list.
Proof.
  intros Hm Hpost Hbody Hparse.
  rewrite (RateQuote_body env p w xmlBytes res body Hm Hpost Hbody).
  rewrite Hparse. split; reflexivity.
Qed.

Lemma RateQuote_returns_parsed_witness :
  NetCharge (RQ_CreateResult (fst (snd (fst
    (RateQuote (Stub.env Stub.quote_body) Stub.quote init))))) = 0 /\
  QuoteID (RQ_CreateResult (fst (snd (fst
    (RateQuote (Stub.env Stub.quote_body) Stub.quote init))))) = EmptyString /\
  snd (snd (fst (RateQuote (Stub.env Stub.quote_body) Stub.quote init))) = None.
Proof.
  pose proof (RateQuote_returns_parsed
                (Stub.env Stub.quote_body) Stub.quote init
                "<soap12:Envelope></soap12:Envelope>"
                {| Body := (Stub.quote_body, None) |} Stub.quote_body
                {| RateQuoteResponse_XMLName := Stub.envelope;
                   RQ_CreateResult := RateQuoteResponseResult_zero |}
                eq_refl eq_refl eq_refl eq_refl) as [Hout _].
  rewrite Hout. repeat split.
Defined.

(** ** Responses that do not parse *)

(** C6. When [xml.Unmarshal] rejects the response body, the operation
    that received it, [RequestPickup] or [RateQuote], returns that error
    wrapped with its own "could not read response 2" message; the function
    still returns (it is total), and between reading the body and closing
    it nothing happens: no confirmation check, no log line.  Each operation
    on its own: nothing is asked of the other one. *)
Theorem malformed_response_is_wrapped env w :
  (forall p xmlBytes res body (responseData : PickupRequestResponse) e,
     xml_Marshal_PickupRequest env (with_fixed_attrs p) = (xmlBytes, None) ->
     pickup_answer env p w = inl res ->
     Body res = (body, None) ->
     xml_Unmarshal_PickupRequestResponse env body PickupRequestResponse_zero
     = (responseData, Some e) ->
     snd (fst (RequestPickup env p w))
     = (responseData,
        Some (WrapError e "ward.RequestPickup - could not read response 2")) /\
     trace (snd (RequestPickup env p w))
     = (trace w ++ [pickup_post env p w; BodyReadAll; BodyClose])%list) /\
  (forall q xmlBytes res body (responseData : RateQuoteResponse) e,
     xml_Marshal_RateQuoteRequest env (RQ_with_fixed_attrs q) = (xmlBytes, None) ->
     quote_answer env q w = inl res ->
     Body res = (body, None) ->
     xml_Unmarshal_RateQuoteResponse env body RateQuoteResponse_zero
     = (responseData, Some e) ->
     snd (fst (RateQuote env q w))
     = (responseData,
        Some (WrapError e "ward.RateQuote - could not read response 2")) /\
     trace (snd (RateQuote env q w))
     = (trace w ++ [quote_post env q w; BodyReadAll; BodyClose])%list).
Proof.
  split.
  - intros p xmlBytes res body responseData e Hm Hpost Hbody Hparse.
    rewrite (RequestPickup_body env p w xmlBytes res body Hm Hpost Hbody), Hparse.
    cbn [fst snd trace app]. rewrite <- app_assoc. split; reflexivity.
  - intros q xmlBytes res body responseData e Hm Hpost Hbody Hparse.
    rewrite (RateQuote_body env q w xmlBytes res body Hm Hpost Hbody), Hparse.
    split; reflexivity.
Qed.

Lemma malformed_response_is_wrapped_witness :
  Error (WrapError (ExternalError "EOF") "ward.RequestPickup - could not read response 2")
  = "ward.RequestPickup - could not read response 2: EOF" /\
  snd (snd (fst (RequestPickup (Stub.env "<html>") Stub.pickup init)))
  = Some (WrapError (ExternalError "EOF") "ward.RequestPickup - could not read response 2") /\
  snd (snd (fst (RateQuote (Stub.env "<html>") Stub.quote init)))
  = Some (WrapError (ExternalError "EOF") "ward.RateQuote - could not read response 2").
Proof.
  destruct (malformed_response_is_wrapped (Stub.env "<html>") init) as [Hpickup Hquote].
  destruct (Hpickup Stub.pickup "<soap12:Envelope></soap12:Envelope>"
                    {| Body := ("<html>", None) |} "<html>"
                    PickupRequestResponse_zero (ExternalError "EOF")
                    eq_refl eq_refl eq_refl eq_refl) as [Hp _].
  destruct (Hquote Stub.quote "<soap12:Envelope></soap12:Envelope>"
                   {| Body := ("<html>", None) |} "<html>"
                   RateQuoteResponse_zero (ExternalError "EOF")
                   eq_refl eq_refl eq_refl eq_refl) as [Hq _].
  rewrite Hp, Hq. repeat split.
Defined.

(** ** The receiver *)

(** C10. On every path, the request [RequestPickup] (or [RateQuote])
    leaves behind is the one it was given with [XsiAttr], [XsdAttr] and
    [Soap12Attr] overwritten by the fixed URIs; [XMLName] and the payload
    fields are the caller's. *)
Theorem receiver_only_gets_namespace_attrs env w (p : PickupRequest) (q : RateQuoteRequest) :
  fst (fst (RequestPickup env p w))
  = {| XMLName := XMLName p;
       XsiAttr := "http://www.w3.org/2001/XMLSchema-instance";
       XsdAttr := "http://www.w3.org/2001/XMLSchema";
       Soap12Attr := "http://www.w3.org/2003/05/soap-envelope";
       ShipperInfo := ShipperInfo p;
       Shipment := Shipment p |} /\
  fst (fst (RateQuote env q w))
  = {| RQ_XMLName := RQ_XMLName q;
       RQ_XsiAttr := "http://www.w3.org/2001/XMLSchema-instance";
       RQ_XsdAttr := "http://www.w3.org/2001/XMLSchema";
       RQ_Soap12Attr := "http://www.w3.org/2003/05/soap-envelope";
       Request := Request q |}.
Proof.
  split.
  - apply RequestPickup_frame.
  - apply RateQuote_frame.
Qed.

(** ** Requests on the wire *)

(** C4. The body of the request each operation posts is the XML
    declaration line (version 1.0, encoding UTF-8, closed by a newline),
    then what [xml.Marshal] makes of the request in which the three
    namespace attributes hold the fixed xsi, xsd and soap12 URIs, then one
    more newline.  [xml.Marshal] is handed the declared type of the request,
    whose struct tags put the attributes on [soap12:Envelope] and the
    payload under the nested paths [soap12:Body>request>...].  Nothing is
    posted when marshalling fails. *)
Theorem posted_body_is_header_xml_newline env w (p : PickupRequest) (q : RateQuoteRequest) :
  let pickup_xml :=
    xml_Marshal_PickupRequest_typed env PickupRequest_type
      {| XMLName := XMLName p;
         XsiAttr := "http://www.w3.org/2001/XMLSchema-instance";
         XsdAttr := "http://www.w3.org/2001/XMLSchema";
         Soap12Attr := "http://www.w3.org/2003/05/soap-envelope";
         ShipperInfo := ShipperInfo p;
         Shipment := Shipment p |} in
  let quote_xml :=
    xml_Marshal_RateQuoteRequest_typed env RateQuoteRequest_type
      {| RQ_XMLName := RQ_XMLName q;
         RQ_XsiAttr := "http://www.w3.org/2001/XMLSchema-instance";
         RQ_XsdAttr := "http://www.w3.org/2001/XMLSchema";
         RQ_Soap12Attr := "http://www.w3.org/2003/05/soap-envelope";
         Request := Request q |} in
  let framed (xml : string) : string :=
    "<?xml version=" ++ String "034"%char
      ("1.0" ++ String "034"%char
         (" encoding=" ++ String "034"%char
            ("UTF-8" ++ String "034"%char
               ("?>" ++ String "010"%char
                  (xml ++ String "010"%char EmptyString))))) in
  (map post_body (posts (trace (snd (RequestPickup env p w))))
   = (map post_body (posts (trace w)) ++
      match snd pickup_xml with
      | None => [framed (fst pickup_xml)]
      | Some _ => []
      end)%list /\
   map post_body (posts (trace (snd (RateQuote env q w))))
   = (map post_body (posts (trace w)) ++
      match snd quote_xml with
      | None => [framed (fst quote_xml)]
      | Some _ => []
      end)%list) /\
  (struct_tag PickupRequest_type "XMLName" = Some "soap12:Envelope" /\
   struct_tag PickupRequest_type "XsiAttr" = Some "xmlns:xsi,attr" /\
   struct_tag PickupRequest_type "XsdAttr" = Some "xmlns:xsd,attr" /\
   struct_tag PickupRequest_type "Soap12Attr" = Some "xmlns:soap12,attr" /\
   struct_tag PickupRequest_type "ShipperInfo"
   = Some "soap12:Body>request>ShipperInformation" /\
   struct_tag PickupRequest_type "Shipment" = Some "soap12:Body>request>Shipment") /\
  (struct_tag RateQuoteRequest_type "XMLName" = Some "soap12:Envelope" /\
   struct_tag RateQuoteRequest_type "XsiAttr" = Some "xmlns:xsi,attr" /\
   struct_tag RateQuoteRequest_type "XsdAttr" = Some "xmlns:xsd,attr" /\
   struct_tag RateQuoteRequest_type "Soap12Attr" = Some "xmlns:soap12,attr" /\
   struct_tag RateQuoteRequest_type "Request" = Some "soap12:Body>request").
Proof.
  intros pickup_xml quote_xml framed.
  destruct (RequestPickup_frame env p w) as (_ & _ & _ & Hp).
  destruct (RateQuote_frame env q w) as (_ & _ & _ & Hq).
  rewrite Hp, Hq, !map_app.
  change (xml_Marshal_PickupRequest env (with_fixed_attrs p)) with pickup_xml.
  change (xml_Marshal_RateQuoteRequest env (RQ_with_fixed_attrs q)) with quote_xml.
  split; [split|split; repeat split].
  - assert (Hbody : post_body (pickup_post env p w) = framed (fst pickup_xml))
      by reflexivity.
    destruct (snd pickup_xml); cbn [map]; [|rewrite Hbody]; reflexivity.
  - assert (Hbody : post_body (quote_post env q w) = framed (fst quote_xml))
      by reflexivity.
    destruct (snd quote_xml); cbn [map]; [|rewrite Hbody]; reflexivity.
Qed.

(** C8. Each call of [RequestPickup] or [RateQuote] issues one POST, none
    when marshalling failed, and its content type is
    application/x-www-form-encoded. *)
Theorem one_post_form_encoded env w (p : PickupRequest) (q : RateQuoteRequest) :
  map post_contentType (posts (trace (snd (RequestPickup env p w))))
  = (map post_contentType (posts (trace w)) ++
     match snd (xml_Marshal_PickupRequest env (with_fixed_attrs p)) with
     | None => ["application/x-www-form-encoded"]
     | Some _ => []
     end)%list /\
  map post_contentType (posts (trace (snd (RateQuote env q w))))
  = (map post_contentType (posts (trace w)) ++
     match snd (xml_Marshal_RateQuoteRequest env (RQ_with_fixed_attrs q)) with
     | None => ["application/x-www-form-encoded"]
     | Some _ => []
     end)%list.
Proof.
  destruct (RequestPickup_frame env p w) as (_ & _ & _ & Hp).
  destruct (RateQuote_frame env q w) as (_ & _ & _ & Hq).
  rewrite Hp, Hq, !map_app. split.
  - destruct (snd (xml_Marshal_PickupRequest env (with_fixed_attrs p))); reflexivity.
  - destruct (snd (xml_Marshal_RateQuoteRequest env (RQ_with_fixed_attrs q))); reflexivity.
Qed.

(** ** Configuration *)

Lemma wrap64_range (z : Z) : int64_min <= wrap64 z <= int64_max.
Proof.
  unfold wrap64, int64_min, int64_max.
  pose proof (Z.mod_pos_bound (z + 2 ^ 63) (2 ^ 64) ltac:(lia)). lia.
Qed.

Lemma wrap64_exact (z : Z) : int64_min <= z <= int64_max -> wrap64 z = z.
Proof.
  unfold wrap64, int64_min, int64_max. intros Hz.
  rewrite Z.mod_small; lia.
Qed.

(** A call never restores the test endpoint: it sets the production
    endpoint or leaves the variable alone. *)
Lemma run_call_url env c w :
  pickupRequestURL (run_call env c w) = pickupRequestProductionURL \/
  pickupRequestURL (run_call env c w) = pickupRequestURL w.
Proof.
  destruct c as [yes|seconds|p|q]; cbn [run_call].
  - left. reflexivity.
  - right. reflexivity.
  - right. apply RequestPickup_frame.
  - right. apply RateQuote_frame.
Qed.

Lemma run_calls_production env cs : forall w,
  pickupRequestURL w = pickupRequestProductionURL ->
  pickupRequestURL (run_calls env cs w) = pickupRequestProductionURL.
Proof.
  induction cs as [|c cs IH]; intros w Hw; cbn [run_calls].
  - exact Hw.
  - apply IH. destruct (run_call_url env c w) as [H|H]; congruence.
Qed.

(** Request calls keep both package variables, and every request they
    post carries the timeout of the world they started from. *)
Lemma run_requests_keep env cs : forall w,
  forallb is_request cs = true ->
  pickupRequestURL (run_calls env cs w) = pickupRequestURL w /\
  timeout (run_calls env cs w) = timeout w /\
  (Forall (fun ev => post_timeout ev = timeout w) (posts (trace w)) ->
   Forall (fun ev => post_timeout ev = timeout w) (posts (trace (run_calls env cs w)))).
Proof.
  induction cs as [|c cs IH]; intros w Hcs; cbn [run_calls].
  - auto.
  - cbn [forallb] in Hcs. apply andb_prop in Hcs as [Hc Hcs].
    destruct (IH (run_call env c w) Hcs) as (Hu & Ht & Hp).
    assert (Hstep : pickupRequestURL (run_call env c w) = pickupRequestURL w /\
                    timeout (run_call env c w) = timeout w /\
                    exists new, posts (trace (run_call env c w))
                                = (posts (trace w) ++ new)%list /\
                                Forall (fun ev => post_timeout ev = timeout w) new).
    { destruct c as [yes|seconds|p|q]; try discriminate Hc; cbn [run_call].
      - destruct (RequestPickup_frame env p w) as (_ & Hu' & Ht' & Hp').
        repeat split; trivial. eexists. split; [exact Hp'|].
        destruct (snd (xml_Marshal_PickupRequest env (with_fixed_attrs p)));
          repeat constructor.
      - destruct (RateQuote_frame env q w) as (_ & Hu' & Ht' & Hp').
        repeat split; trivial. eexists. split; [exact Hp'|].
        destruct (snd (xml_Marshal_RateQuoteRequest env (RQ_with_fixed_attrs q)));
          repeat constructor. }
    destruct Hstep as (Hu' & Ht' & new & Hnew & Hall).
    repeat split; try congruence.
    intros Hw. rewrite Ht' in Hp. apply Hp.
    rewrite Hnew. apply Forall_app. split; assumption.
Qed.

(** C2. Whatever boolean it is given, [SetProductionMode] selects the
    production endpoint; after it, through any further calls of the four
    exported functions, the variable stays there and a pickup request is
    posted to the production URL.  A rate quote is posted to the one
    rate-quote URL from any state of the package. *)
Theorem SetProductionMode_is_one_way env (yes : bool) w cs
    (p : PickupRequest) (q : RateQuoteRequest) :
  SetProductionMode yes w = SetProductionMode (negb yes) w /\
  pickupRequestURL (run_calls env cs (snd (SetProductionMode yes w)))
  = pickupRequestProductionURL /\
  map post_url (posts (trace
    (snd (RequestPickup env p (run_calls env cs (snd (SetProductionMode yes w)))))))
  = (map post_url (posts (trace (run_calls env cs (snd (SetProductionMode yes w))))) ++
     match snd (xml_Marshal_PickupRequest env (with_fixed_attrs p)) with
     | None => ["http://208.51.75.23:6082/cgi-bin/map/PICKUP"]
     | Some _ => []
     end)%list /\
  map post_url (posts (trace (snd (RateQuote env q w))))
  = (map post_url (posts (trace w)) ++
     match snd (xml_Marshal_RateQuoteRequest env (RQ_with_fixed_attrs q)) with
     | None => ["http://208.51.75.23:6082/cgi-bin/map/RATEQUOTE"]
     | Some _ => []
     end)%list.
Proof.
  assert (Hurl : pickupRequestURL (run_calls env cs (snd (SetProductionMode yes w)))
                 = pickupRequestProductionURL)
    by (apply run_calls_production; reflexivity).
  split; [reflexivity|]. split; [exact Hurl|]. split.
  - destruct (RequestPickup_frame env p
                (run_calls env cs (snd (SetProductionMode yes w)))) as (_ & _ & _ & Hp).
    rewrite Hp, map_app. unfold pickup_post. rewrite Hurl.
    destruct (snd (xml_Marshal_PickupRequest env (with_fixed_attrs p))); reflexivity.
  - destruct (RateQuote_frame env q w) as (_ & _ & _ & Hq).
    rewrite Hq, map_app.
    destruct (snd (xml_Marshal_RateQuoteRequest env (RQ_with_fixed_attrs q))); reflexivity.
Qed.

(** C3, as the code has it.  [SetTimeout d] stores the int64 product of
    [d] and [time.Second]: [d * 10^9] nanoseconds reduced to the signed
    64-bit range, which is [d * 10^9] itself exactly when that fits.  So
    [d] counts seconds, and a caller passing [n] seconds as a duration,
    with [n] between -9 and 9, gets [n * 10^9] seconds. *)
Theorem SetTimeout_counts_seconds (d : Duration) w :
  timeout (snd (SetTimeout d w)) = wrap64 (d * 1000000000) /\
  (timeout (snd (SetTimeout d w)) = d * 1000000000 <->
   int64_min <= d * 1000000000 <= int64_max) /\
  (forall n, d = n * 1000000000 -> -9 <= n <= 9 ->
             timeout (snd (SetTimeout d w)) = (n * 1000000000) * 1000000000) /\
  pickupRequestURL (snd (SetTimeout d w)) = pickupRequestURL w.
Proof.
  cbn [SetTimeout snd timeout pickupRequestURL]. unfold int64_mul.
  change time_Second with 1000000000.
  split; [reflexivity|]. split; [split|split; [|reflexivity]].
  - intros Heq. rewrite <- Heq. apply wrap64_range.
  - apply wrap64_exact.
  - intros n -> Hn. apply wrap64_exact. unfold int64_min, int64_max. lia.
Qed.

Lemma SetTimeout_counts_seconds_witness :
  timeout (snd (SetTimeout 9000000000 init)) = 9000000000 * 1000000000.
Proof.
  apply (proj1 (proj2 (proj2 (SetTimeout_counts_seconds 9000000000 init))) 9);
    [reflexivity | lia].
Defined.

(** C3 as stated fails beyond nine seconds: passing ten seconds as a
    duration does not give [10 * 10^9] seconds but a negative timeout. *)
Lemma SetTimeout_ten_seconds_wraps :
  timeout (snd (SetTimeout (int64_mul 10 time_Second) init)) = -8446744073709551616 /\
  timeout (snd (SetTimeout (int64_mul 10 time_Second) init))
  <> int64_mul 10 time_Second * 1000000000.
Proof. split; [reflexivity | discriminate]. Qed.

(** C9. As long as neither [SetProductionMode] nor [SetTimeout] was
    called, the pickup endpoint is the test URL and the timeout is ten
    seconds: every request posted so far carries it, and so does the next
    pickup request, which goes to the test URL. *)
Theorem defaults_until_configured env cs (p : PickupRequest) :
  forallb is_request cs = true ->
  pickupRequestURL (run_calls env cs init)
  = "http://208.51.75.23:6082/cgi-bin/map/PICKUPTEST" /\
  timeout (run_calls env cs init) = 10 * 1000000000 /\
  Forall (fun ev => post_timeout ev = 10 * 1000000000)
         (posts (trace (run_calls env cs init))) /\
  posts (trace (snd (RequestPickup env p (run_calls env cs init))))
  = (posts (trace (run_calls env cs init)) ++
     match snd (xml_Marshal_PickupRequest env (with_fixed_attrs p)) with
     | None =>
         [HTTPPost {| Timeout := 10 * 1000000000 |}
                   "http://208.51.75.23:6082/cgi-bin/map/PICKUPTEST"
                   "application/x-www-form-encoded"
                   (xml_Header ++
                    fst (xml_Marshal_PickupRequest env (with_fixed_attrs p)) ++ nl)%string]
     | Some _ => []
     end)%list.
Proof.
  intros Hcs.
  destruct (run_requests_keep env cs init Hcs) as (Hu & Ht & Hp).
  change (pickupRequestURL init) with "http://208.51.75.23:6082/cgi-bin/map/PICKUPTEST" in Hu.
  change (timeout init) with (10 * 1000000000) in Ht, Hp.
  split; [exact Hu|]. split; [exact Ht|]. split.
  - apply Hp. constructor.
  - destruct (RequestPickup_frame env p (run_calls env cs init)) as (_ & _ & _ & Hq).
    rewrite Hq. unfold pickup_post. rewrite Hu, Ht. reflexivity.
Qed.

Lemma defaults_until_configured_witness :
  posts (trace (run_calls (Stub.env Stub.success_body)
                          [CallRequestPickup Stub.pickup; CallRateQuote Stub.quote] init))
  = [ HTTPPost {| Timeout := 10 * 1000000000 |} pickupRequestTestURL
               "application/x-www-form-encoded"
               (xml_Header ++ "<soap12:Envelope></soap12:Envelope>" ++ nl)%string;
      HTTPPost {| Timeout := 10 * 1000000000 |} rateQuoteURL
               "application/x-www-form-encoded"
               (xml_Header ++ "<soap12:Envelope></soap12:Envelope>" ++ nl)%string ] /\
  Forall (fun ev => post_timeout ev = 10 * 1000000000)
         (posts (trace (run_calls (Stub.env Stub.success_body)
                          [CallRequestPickup Stub.pickup; CallRateQuote Stub.quote] init))).
Proof.
  split; [reflexivity|].
  apply (defaults_until_configured (Stub.env Stub.success_body)
           [CallRequestPickup Stub.pickup; CallRateQuote Stub.quote] Stub.pickup).
  reflexivity.
Defined.

(** ** The failing stages, path by path *)

Lemma RateQuote_marshal_error env p w xmlBytes e :
  xml_Marshal_RateQuoteRequest env (RQ_with_fixed_attrs p) = (xmlBytes, Some e) ->
  RateQuote env p w
  = (RQ_with_fixed_attrs p,
     (RateQuoteResponse_zero,
      Some (WrapError e "ward.RateQuote - could not marshal xml")), w).
Proof.
  intros Hm. unfold RateQuote. rewrite RQ_receiver_attrs, Hm. reflexivity.
Qed.

(** Both operations from the point where the network has answered with a
    response, whatever reading its body gives. *)
Lemma RequestPickup_answered env p w xmlBytes res :
  xml_Marshal_PickupRequest env (with_fixed_attrs p) = (xmlBytes, None) ->
  pickup_answer env p w = inl res ->
  exists out mid,
    RequestPickup env p w
    = (with_fixed_attrs p, out,
       {| pickupRequestURL := pickupRequestURL w; timeout := timeout w;
          trace := (trace w ++ [pickup_post env p w; BodyReadAll] ++ mid
                    ++ [BodyClose])%list |}) /\
    forallb is_log mid = true /\
    (snd (Body res) <> None ->
     mid = [] /\
     out = (PickupRequestResponse_zero,
            errors_Wrap (snd (Body res))
                        "ward.RequestPickup - could not read response 1")).
Proof.
  intros Hm Hpost.
  destruct (Body res) as [body [e|]] eqn:Hbody.
  - exists (PickupRequestResponse_zero,
            Some (WrapError e "ward.RequestPickup - could not read response 1")), [].
    split; [|split; [reflexivity|intros _; split; reflexivity]].
    unfold pickup_answer, pickup_post in *. rewrite Hm in *. cbn [fst] in *.
    unfold RequestPickup. rewrite receiver_attrs, Hm. step_monad.
    rewrite Hpost. step_monad. rewrite Hbody. cbn [errors_Wrap fst snd trace].
    rewrite <- !app_assoc. reflexivity.
  - rewrite (RequestPickup_body env p w xmlBytes res body Hm Hpost Hbody).
    destruct (xml_Unmarshal_PickupRequestResponse env body PickupRequestResponse_zero)
      as [responseData [e|]].
    + eexists _, []. cbv beta iota zeta. rewrite <- app_assoc. cbn [app].
      split; [reflexivity|]. split; [reflexivity|]. intros H. now destruct H.
    + destruct (String.eqb (PickupConfirmation (CreateResult responseData)) EmptyString).
      * eexists _, [ LogPrintln "ward.RequestPickup - pickup request failed";
                     LogPrintf body;
                     LogPrintlnMap (fst (xml_Unmarshal_map env body [])) ].
        cbv beta iota zeta. rewrite <- app_assoc. cbn [app].
        split; [reflexivity|]. split; [reflexivity|]. intros H. now destruct H.
      * eexists _, []. cbv beta iota zeta. rewrite <- app_assoc. cbn [app].
        split; [reflexivity|]. split; [reflexivity|]. intros H. now destruct H.
Qed.

Lemma RateQuote_answered env p w xmlBytes res :
  xml_Marshal_RateQuoteRequest env (RQ_with_fixed_attrs p) = (xmlBytes, None) ->
  quote_answer env p w = inl res ->
  exists out,
    RateQuote env p w
    = (RQ_with_fixed_attrs p, out,
       {| pickupRequestURL := pickupRequestURL w; timeout := timeout w;
          trace := (trace w ++ [quote_post env p w; BodyReadAll; BodyClose])%list |}) /\
    (snd (Body res) <> None ->
     out = (RateQuoteResponse_zero,
            errors_Wrap (snd (Body res))
                        "ward.RateQuote - could not read response 1")).
Proof.
  intros Hm Hpost.
  destruct (Body res) as [body [e|]] eqn:Hbody.
  - eexists. split; [|intros _; reflexivity].
    unfold quote_answer, quote_post in *. rewrite Hm in *. cbn [fst] in *.
    unfold RateQuote. rewrite RQ_receiver_attrs, Hm. step_monad.
    rewrite Hpost. step_monad. rewrite Hbody. cbn [errors_Wrap fst snd trace].
    rewrite <- !app_assoc. reflexivity.
  - rewrite (RateQuote_body env p w xmlBytes res body Hm Hpost Hbody).
    destruct (xml_Unmarshal_RateQuoteResponse env body RateQuoteResponse_zero)
      as [responseData err].
    eexists. split; [reflexivity|]. intros H. now destruct H.
Qed.

Lemma RequestPickup_post_error env p w xmlBytes e :
  xml_Marshal_PickupRequest env (with_fixed_attrs p) = (xmlBytes, None) ->
  pickup_answer env p w = inr e ->
  RequestPickup env p w
  = (with_fixed_attrs p,
     (PickupRequestResponse_zero,
      Some (WrapError e "ward.RequestPickup - could not make post request")),
     {| pickupRequestURL := pickupRequestURL w; timeout := timeout w;
        trace := (trace w ++ [pickup_post env p w])%list |}).
Proof.
  intros Hm Hpost.
  unfold pickup_answer, pickup_post in *. rewrite Hm in *. cbn [fst] in *.
  unfold RequestPickup. rewrite receiver_attrs, Hm. step_monad.
  rewrite Hpost. reflexivity.
Qed.

Lemma RateQuote_post_error env p w xmlBytes e :
  xml_Marshal_RateQuoteRequest env (RQ_with_fixed_attrs p) = (xmlBytes, None) ->
  quote_answer env p w = inr e ->
  RateQuote env p w
  = (RQ_with_fixed_attrs p,
     (RateQuoteResponse_zero,
      Some (WrapError e "ward.RateQuote - could not make post request")),
     {| pickupRequestURL := pickupRequestURL w; timeout := timeout w;
        trace := (trace w ++ [quote_post env p w])%list |}).
Proof.
  intros Hm Hpost.
  unfold quote_answer, quote_post in *. rewrite Hm in *. cbn [fst] in *.
  unfold RateQuote. rewrite RQ_receiver_attrs, Hm. step_monad.
  rewrite Hpost. reflexivity.
Qed.

(** ** Beyond the confirmation check: the other outcomes *)

(** X1. When the response parses and carries a confirmation, the pickup
    call returns the parsed response with a nil error; the request was
    posted, the body read and closed, and nothing was logged. *)
Theorem RequestPickup_confirmed
    env p w xmlBytes res body (responseData : PickupRequestResponse) :
  xml_Marshal_PickupRequest env (with_fixed_attrs p) = (xmlBytes, None) ->
  pickup_answer env p w = inl res ->
  Body res = (body, None) ->
  xml_Unmarshal_PickupRequestResponse env body PickupRequestResponse_zero
  = (responseData, None) ->
  PickupConfirmation (CreateResult responseData) <> EmptyString ->
  snd (fst (RequestPickup env p w)) = (responseData, None) /\
  trace (snd (RequestPickup env p w))
  = (trace w ++ [pickup_post env p w; BodyReadAll; BodyClose])%list.
Proof.
  intros Hm Hpost Hbody Hparse Hconf.
  rewrite (RequestPickup_body env p w xmlBytes res body Hm Hpost Hbody), Hparse.
  apply String.eqb_neq in Hconf. rewrite Hconf. cbn [fst snd trace app].
  rewrite <- app_assoc. split; reflexivity.
Qed.

Lemma RequestPickup_confirmed_witness :
  snd (fst (RequestPickup (Stub.env Stub.success_body) Stub.pickup init))
  = (Stub.result_of "ABC123" EmptyString, None) /\
  trace (snd (RequestPickup (Stub.env Stub.success_body) Stub.pickup init))
  = [ pickup_post (Stub.env Stub.success_body) Stub.pickup init;
      BodyReadAll; BodyClose ].
Proof.
  apply (RequestPickup_confirmed
           (Stub.env Stub.success_body) Stub.pickup init
           "<soap12:Envelope></soap12:Envelope>"
           {| Body := (Stub.success_body, None) |} Stub.success_body
           (Stub.result_of "ABC123" EmptyString));
    try reflexivity.
  discriminate.
Defined.

(** X2. A nil error from [RequestPickup] can be relied on: the response
    returned is what the parser made of a body that was read in full, its
    confirmation is not empty, and nothing was logged. *)
Theorem RequestPickup_nil_error_has_confirmation env p w :
  snd (snd (fst (RequestPickup env p w))) = None ->
  PickupConfirmation (CreateResult (fst (snd (fst (RequestPickup env p w)))))
  <> EmptyString /\
  logs (trace (snd (RequestPickup env p w))) = logs (trace w) /\
  exists res body,
    pickup_answer env p w = inl res /\
    Body res = (body, None) /\
    xml_Unmarshal_PickupRequestResponse env body PickupRequestResponse_zero
    = (fst (snd (fst (RequestPickup env p w))), None).
Proof.
  destruct (xml_Marshal_PickupRequest env (with_fixed_attrs p)) as [xmlBytes [e|]] eqn:Hm.
  { rewrite (RequestPickup_marshal_error env p w xmlBytes e Hm). discriminate. }
  destruct (pickup_answer env p w) as [res|e] eqn:Ha.
  2:{ rewrite (RequestPickup_post_error env p w xmlBytes e Hm Ha). discriminate. }
  destruct (Body res) as [body [e|]] eqn:Hb.
  { destruct (RequestPickup_answered env p w xmlBytes res Hm Ha)
      as (out & mid & Heq & _ & Hread).
    rewrite Hb in Hread. destruct Hread as [_ ->]; [discriminate|].
    rewrite Heq. discriminate. }
  rewrite (RequestPickup_body env p w xmlBytes res body Hm Ha Hb).
  destruct (xml_Unmarshal_PickupRequestResponse env body PickupRequestResponse_zero)
    as [responseData [e|]] eqn:Hparse; [discriminate|].
  destruct (String.eqb (PickupConfirmation (CreateResult responseData)) EmptyString)
    eqn:Hconf; [discriminate|].
  intros _. cbn [fst snd trace]. split; [now apply String.eqb_neq|]. split.
  - unfold logs. rewrite !filter_app. cbn [filter is_log pickup_post].
    now rewrite !app_nil_r.
  - exists res, body. auto.
Qed.

Lemma RequestPickup_nil_error_has_confirmation_witness :
  PickupConfirmation (CreateResult (fst (snd (fst
    (RequestPickup (Stub.env Stub.success_body) Stub.pickup init))))) <> EmptyString.
Proof.
  apply (RequestPickup_nil_error_has_confirmation
           (Stub.env Stub.success_body) Stub.pickup init).
  reflexivity.
Defined.

(** X3. When marshalling fails, the operation that tried, [RequestPickup]
    or [RateQuote], returns that error wrapped with its "could not marshal
    xml" message and the zero response, and leaves the world as it found
    it: no request, no log line.  Each operation on its own. *)
Theorem marshal_failure_sends_nothing env w :
  (forall (p : PickupRequest) xmlBytes e,
     xml_Marshal_PickupRequest env (with_fixed_attrs p) = (xmlBytes, Some e) ->
     snd (fst (RequestPickup env p w))
     = (PickupRequestResponse_zero,
        Some (WrapError e "ward.RequestPickup - could not marshal xml")) /\
     snd (RequestPickup env p w) = w) /\
  (forall (q : RateQuoteRequest) xmlBytes e,
     xml_Marshal_RateQuoteRequest env (RQ_with_fixed_attrs q) = (xmlBytes, Some e) ->
     snd (fst (RateQuote env q w))
     = (RateQuoteResponse_zero,
        Some (WrapError e "ward.RateQuote - could not marshal xml")) /\
     snd (RateQuote env q w) = w).
Proof.
  split.
  - intros p xmlBytes e Hm.
    rewrite (RequestPickup_marshal_error env p w xmlBytes e Hm). split; reflexivity.
  - intros q xmlBytes e Hm.
    rewrite (RateQuote_marshal_error env q w xmlBytes e Hm). split; reflexivity.
Qed.

Lemma marshal_failure_sends_nothing_witness :
  snd (RequestPickup Faults.marshal_fails Stub.pickup init) = init /\
  snd (RateQuote Faults.marshal_fails Stub.quote init) = init.
Proof.
  destruct (marshal_failure_sends_nothing Faults.marshal_fails init) as [Hpickup Hquote].
  split.
  - apply (Hpickup Stub.pickup EmptyString (ExternalError "xml: unsupported type")).
    reflexivity.
  - apply (Hquote Stub.quote EmptyString (ExternalError "xml: unsupported type")).
    reflexivity.
Defined.

(** X4. When the POST itself fails, the operation that posted returns the
    transport error wrapped with its "could not make post request" message
    and the zero response.  The request is the only event: with no
    response there is no body to read or close, and no second attempt.
    Each operation on its own. *)
Theorem transport_failure_is_wrapped env w :
  (forall (p : PickupRequest) xmlBytes e,
     xml_Marshal_PickupRequest env (with_fixed_attrs p) = (xmlBytes, None) ->
     pickup_answer env p w = inr e ->
     snd (fst (RequestPickup env p w))
     = (PickupRequestResponse_zero,
        Some (WrapError e "ward.RequestPickup - could not make post request")) /\
     trace (snd (RequestPickup env p w)) = (trace w ++ [pickup_post env p w])%list) /\
  (forall (q : RateQuoteRequest) xmlBytes e,
     xml_Marshal_RateQuoteRequest env (RQ_with_fixed_attrs q) = (xmlBytes, None) ->
     quote_answer env q w = inr e ->
     snd (fst (RateQuote env q w))
     = (RateQuoteResponse_zero,
        Some (WrapError e "ward.RateQuote - could not make post request")) /\
     trace (snd (RateQuote env q w)) = (trace w ++ [quote_post env q w])%list).
Proof.
  split.
  - intros p xmlBytes e Hm Ha.
    rewrite (RequestPickup_post_error env p w xmlBytes e Hm Ha). split; reflexivity.
  - intros q xmlBytes e Hm Ha.
    rewrite (RateQuote_post_error env q w xmlBytes e Hm Ha). split; reflexivity.
Qed.

Lemma transport_failure_is_wrapped_witness :
  trace (snd (RequestPickup Faults.post_fails Stub.pickup init))
  = [pickup_post Faults.post_fails Stub.pickup init] /\
  snd (snd (fst (RateQuote Faults.post_fails Stub.quote init)))
  = Some (WrapError (ExternalError "Client.Timeout exceeded")
                    "ward.RateQuote - could not make post request").
Proof.
  destruct (transport_failure_is_wrapped Faults.post_fails init) as [Hpickup Hquote].
  destruct (Hpickup Stub.pickup "<soap12:Envelope></soap12:Envelope>"
                    (ExternalError "Client.Timeout exceeded") eq_refl eq_refl)
    as [_ Hp].
  destruct (Hquote Stub.quote "<soap12:Envelope></soap12:Envelope>"
                   (ExternalError "Client.Timeout exceeded") eq_refl eq_refl)
    as [Hq _].
  split; [exact Hp | rewrite Hq; reflexivity].
Defined.

(** X5. When reading the response body fails, the operation that read it
    returns the read error wrapped with its "could not read response 1"
    message and the zero response: what was read of the body is not
    parsed, whatever the parser would have made of it.  The body is closed
    all the same.  Each operation on its own. *)
Theorem read_failure_discards_body env w :
  (forall (p : PickupRequest) xmlBytes res body e,
     xml_Marshal_PickupRequest env (with_fixed_attrs p) = (xmlBytes, None) ->
     pickup_answer env p w = inl res ->
     Body res = (body, Some e) ->
     snd (fst (RequestPickup env p w))
     = (PickupRequestResponse_zero,
        Some (WrapError e "ward.RequestPickup - could not read response 1")) /\
     trace (snd (RequestPickup env p w))
     = (trace w ++ [pickup_post env p w; BodyReadAll; BodyClose])%list) /\
  (forall (q : RateQuoteRequest) xmlBytes res body e,
     xml_Marshal_RateQuoteRequest env (RQ_with_fixed_attrs q) = (xmlBytes, None) ->
     quote_answer env q w = inl res ->
     Body res = (body, Some e) ->
     snd (fst (RateQuote env q w))
     = (RateQuoteResponse_zero,
        Some (WrapError e "ward.RateQuote - could not read response 1")) /\
     trace (snd (RateQuote env q w))
     = (trace w ++ [quote_post env q w; BodyReadAll; BodyClose])%list).
Proof.
  split.
  - intros p xmlBytes res body e Hm Ha Hb.
    destruct (RequestPickup_answered env p w xmlBytes res Hm Ha)
      as (out & mid & Heq & _ & Hread).
    rewrite Hb in Hread. cbn [snd errors_Wrap] in Hread.
    destruct Hread as [-> ->]; [discriminate|].
    rewrite Heq. split; reflexivity.
  - intros q xmlBytes res body e Hm Ha Hb.
    destruct (RateQuote_answered env q w xmlBytes res Hm Ha) as (out & Heq & Hread).
    rewrite Hb in Hread. cbn [snd errors_Wrap] in Hread.
    rewrite Hread in Heq by discriminate.
    rewrite Heq. split; reflexivity.
Qed.

Lemma read_failure_discards_body_witness :
  fst (Stub.parse_pickup Stub.success_body PickupRequestResponse_zero)
  = Stub.result_of "ABC123" EmptyString /\
  snd (fst (RequestPickup Faults.read_fails Stub.pickup init))
  = (PickupRequestResponse_zero,
     Some (WrapError (ExternalError "unexpected EOF")
                     "ward.RequestPickup - could not read response 1")) /\
  fst (snd (fst (RateQuote Faults.read_fails Stub.quote init)))
  = RateQuoteResponse_zero.
Proof.
  destruct (read_failure_discards_body Faults.read_fails init) as [Hpickup Hquote].
  destruct (Hpickup Stub.pickup "<soap12:Envelope></soap12:Envelope>"
                    {| Body := (Stub.success_body, Some (ExternalError "unexpected EOF")) |}
                    Stub.success_body (ExternalError "unexpected EOF")
                    eq_refl eq_refl eq_refl) as [Hp _].
  destruct (Hquote Stub.quote "<soap12:Envelope></soap12:Envelope>"
                   {| Body := (Stub.success_body, Some (ExternalError "unexpected EOF")) |}
                   Stub.success_body (ExternalError "unexpected EOF")
                   eq_refl eq_refl eq_refl) as [Hq _].
  split; [reflexivity|]. split; [exact Hp | rewrite Hq; reflexivity].
Defined.

(** X6. Whenever the network answers an operation with a response, the
    body of that response is read once and closed once, and the close
    comes last: after the request and the read, only log lines can precede
    it (none for a rate quote).  This holds whether the read fails, the
    parse fails, or the confirmation is missing.  Each operation on its
    own. *)
Theorem response_body_is_closed_last env w :
  (forall (p : PickupRequest) xmlBytes res,
     xml_Marshal_PickupRequest env (with_fixed_attrs p) = (xmlBytes, None) ->
     pickup_answer env p w = inl res ->
     exists mid,
       trace (snd (RequestPickup env p w))
       = (trace w ++ [pickup_post env p w; BodyReadAll] ++ mid ++ [BodyClose])%list /\
       forallb is_log mid = true) /\
  (forall (q : RateQuoteRequest) xmlBytes res,
     xml_Marshal_RateQuoteRequest env (RQ_with_fixed_attrs q) = (xmlBytes, None) ->
     quote_answer env q w = inl res ->
     trace (snd (RateQuote env q w))
     = (trace w ++ [quote_post env q w; BodyReadAll; BodyClose])%list).
Proof.
  split.
  - intros p xmlBytes res Hm Ha.
    destruct (RequestPickup_answered env p w xmlBytes res Hm Ha)
      as (out & mid & Heq & Hlog & _).
    rewrite Heq. exists mid. split; [reflexivity|exact Hlog].
  - intros q xmlBytes res Hm Ha.
    destruct (RateQuote_answered env q w xmlBytes res Hm Ha) as (out & Heq & _).
    rewrite Heq. reflexivity.
Qed.

Lemma response_body_is_closed_last_witness :
  (exists mid,
     trace (snd (RequestPickup (Stub.env Stub.failure_body) Stub.pickup init))
     = ([] ++ [pickup_post (Stub.env Stub.failure_body) Stub.pickup init; BodyReadAll]
        ++ mid ++ [BodyClose])%list /\
     forallb is_log mid = true) /\
  trace (snd (RateQuote Faults.read_fails Stub.quote init))
  = [quote_post Faults.read_fails Stub.quote init; BodyReadAll; BodyClose].
Proof.
  split.
  - apply (proj1 (response_body_is_closed_last (Stub.env Stub.failure_body) init)
             Stub.pickup "<soap12:Envelope></soap12:Envelope>"
             {| Body := (Stub.failure_body, None) |} eq_refl eq_refl).
  - apply (proj2 (response_body_is_closed_last Faults.read_fails init)
             Stub.quote "<soap12:Envelope></soap12:Envelope>"
             {| Body := (Stub.success_body, Some (ExternalError "unexpected EOF")) |}
             eq_refl eq_refl).
Defined.

(** X7. The logger is written to on one path only.  [RequestPickup] logs
    exactly when it returns the "pickup request failed" error, and then
    three lines about the response it received: the message, the body
    read from that response, handed to [Printf] as the format, and the map
    [xml.Unmarshal] made of that same body.  [RateQuote] never logs. *)
Theorem logging_only_on_failed_pickup env w (p : PickupRequest) (q : RateQuoteRequest) :
  ((snd (snd (fst (RequestPickup env p w)))
    = Some (NewError "ward.RequestPickup - pickup request failed") /\
    exists res body,
      snd (xml_Marshal_PickupRequest env (with_fixed_attrs p)) = None /\
      pickup_answer env p w = inl res /\
      Body res = (body, None) /\
      logs (trace (snd (RequestPickup env p w)))
      = (logs (trace w) ++
         [ LogPrintln "ward.RequestPickup - pickup request failed";
           LogPrintf body;
           LogPrintlnMap (fst (xml_Unmarshal_map env body [])) ])%list)
   \/
   (snd (snd (fst (RequestPickup env p w)))
    <> Some (NewError "ward.RequestPickup - pickup request failed") /\
    logs (trace (snd (RequestPickup env p w))) = logs (trace w))) /\
  logs (trace (snd (RateQuote env q w))) = logs (trace w).
Proof.
  split.
  - destruct (xml_Marshal_PickupRequest env (with_fixed_attrs p))
      as [xmlBytes [e|]] eqn:Hm.
    { rewrite (RequestPickup_marshal_error env p w xmlBytes e Hm).
      right. split; [discriminate|reflexivity]. }
    destruct (pickup_answer env p w) as [res|e] eqn:Ha.
    2:{ rewrite (RequestPickup_post_error env p w xmlBytes e Hm Ha).
        right. split; [discriminate|].
        cbn [snd trace]. unfold logs. rewrite filter_app.
        cbn [filter is_log pickup_post]. now rewrite app_nil_r. }
    destruct (Body res) as [body [e|]] eqn:Hb.
    { destruct (RequestPickup_answered env p w xmlBytes res Hm Ha)
        as (out & mid & Heq & _ & Hread).
      rewrite Hb in Hread. destruct Hread as [-> ->]; [discriminate|].
      rewrite Heq. right. split; [discriminate|].
      cbn [snd trace app]. unfold logs. rewrite filter_app.
      cbn [filter is_log pickup_post]. now rewrite app_nil_r. }
    rewrite (RequestPickup_body env p w xmlBytes res body Hm Ha Hb).
    destruct (xml_Unmarshal_PickupRequestResponse env body PickupRequestResponse_zero)
      as [responseData [e|]].
    { right. split; [discriminate|].
      cbn [snd trace app]. unfold logs. rewrite !filter_app.
      cbn [filter is_log pickup_post]. now rewrite !app_nil_r. }
    destruct (String.eqb (PickupConfirmation (CreateResult responseData)) EmptyString).
    + left. split; [reflexivity|]. exists res, body.
      split; [reflexivity|]. split; [reflexivity|]. split; [exact Hb|].
      cbn [snd trace app]. unfold logs. rewrite !filter_app.
      cbn [filter is_log pickup_post app]. now rewrite !app_nil_r.
    + right. split; [discriminate|].
      cbn [snd trace app]. unfold logs. rewrite !filter_app.
      cbn [filter is_log pickup_post]. now rewrite !app_nil_r.
  - destruct (xml_Marshal_RateQuoteRequest env (RQ_with_fixed_attrs q))
      as [xmlBytes [e|]] eqn:Hm.
    { now rewrite (RateQuote_marshal_error env q w xmlBytes e Hm). }
    destruct (quote_answer env q w) as [res|e] eqn:Ha.
    + destruct (RateQuote_answered env q w xmlBytes res Hm Ha) as (out & Heq & _).
      rewrite Heq. cbn [snd trace]. unfold logs. rewrite filter_app.
      cbn [filter is_log quote_post]. now rewrite app_nil_r.
    + rewrite (RateQuote_post_error env q w xmlBytes e Hm Ha).
      cbn [snd trace]. unfold logs. rewrite filter_app.
      cbn [filter is_log quote_post]. now rewrite app_nil_r.
Qed.

(** ** Errors, requests and configuration across calls *)

(** X8. Every non-nil error an operation returns names its stage: it is a
    library error wrapped with one of the operation's four stage messages
    or, for a pickup only, the "pickup request failed" error.  A library
    error never reaches the caller bare. *)
Theorem errors_name_their_stage env w (p : PickupRequest) (q : RateQuoteRequest) :
  match snd (snd (fst (RequestPickup env p w))) with
  | None => True
  | Some (WrapError _ msg) => In msg pickup_stage_messages
  | Some (NewError msg) => msg = "ward.RequestPickup - pickup request failed"
  | Some (ExternalError _) => False
  end /\
  match snd (snd (fst (RateQuote env q w))) with
  | None => True
  | Some (WrapError _ msg) => In msg quote_stage_messages
  | Some (NewError _) | Some (ExternalError _) => False
  end.
Proof.
  split.
  - destruct (xml_Marshal_PickupRequest env (with_fixed_attrs p))
      as [xmlBytes [e|]] eqn:Hm.
    { rewrite (RequestPickup_marshal_error env p w xmlBytes e Hm).
      cbn [fst snd pickup_stage_messages In]. auto. }
    destruct (pickup_answer env p w) as [res|e] eqn:Ha.
    2:{ rewrite (RequestPickup_post_error env p w xmlBytes e Hm Ha).
        cbn [fst snd pickup_stage_messages In]. auto. }
    destruct (Body res) as [body [e|]] eqn:Hb.
    { destruct (RequestPickup_answered env p w xmlBytes res Hm Ha)
        as (out & mid & Heq & _ & Hread).
      rewrite Hb in Hread. destruct Hread as [-> ->]; [discriminate|].
      rewrite Heq. cbn [fst snd errors_Wrap pickup_stage_messages In]. auto. }
    rewrite (RequestPickup_body env p w xmlBytes res body Hm Ha Hb).
    destruct (xml_Unmarshal_PickupRequestResponse env body PickupRequestResponse_zero)
      as [responseData [e|]].
    { cbn [fst snd pickup_stage_messages In]. auto 6. }
    destruct (String.eqb (PickupConfirmation (CreateResult responseData)) EmptyString);
      cbn [fst snd]; auto.
  - destruct (xml_Marshal_RateQuoteRequest env (RQ_with_fixed_attrs q))
      as [xmlBytes [e|]] eqn:Hm.
    { rewrite (RateQuote_marshal_error env q w xmlBytes e Hm).
      cbn [fst snd quote_stage_messages In]. auto. }
    destruct (quote_answer env q w) as [res|e] eqn:Ha.
    2:{ rewrite (RateQuote_post_error env q w xmlBytes e Hm Ha).
        cbn [fst snd quote_stage_messages In]. auto. }
    destruct (Body res) as [body [e|]] eqn:Hb.
    { destruct (RateQuote_answered env q w xmlBytes res Hm Ha) as (out & Heq & Hread).
      rewrite Hb in Hread. rewrite Hread in Heq by discriminate.
      rewrite Heq. cbn [fst snd errors_Wrap quote_stage_messages In]. auto. }
    rewrite (RateQuote_body env q w xmlBytes res body Hm Ha Hb).
    destruct (xml_Unmarshal_RateQuoteResponse env body RateQuoteResponse_zero)
      as [responseData [e|]];
      cbn [fst snd errors_Wrap quote_stage_messages In]; auto 6.
Qed.

(** X9. What the caller left in the three namespace attributes has no
    influence on a call: two requests that agree on [XMLName] and on the
    payload give the same results, the same request on the wire and the
    same receiver afterwards. *)
Theorem namespace_attrs_do_not_matter
    env w (p p' : PickupRequest) (q q' : RateQuoteRequest) :
  XMLName p = XMLName p' ->
  ShipperInfo p = ShipperInfo p' ->
  Shipment p = Shipment p' ->
  RQ_XMLName q = RQ_XMLName q' ->
  Request q = Request q' ->
  RequestPickup env p w = RequestPickup env p' w /\
  RateQuote env q w = RateQuote env q' w.
Proof.
  intros Hn Hi Hs Hn' Hr.
  assert (Hp : with_fixed_attrs p = with_fixed_attrs p')
    by (unfold with_fixed_attrs; congruence).
  assert (Hq : RQ_with_fixed_attrs q = RQ_with_fixed_attrs q')
    by (unfold RQ_with_fixed_attrs; congruence).
  unfold RequestPickup, RateQuote.
  rewrite !receiver_attrs, !RQ_receiver_attrs, Hp, Hq. split; reflexivity.
Qed.

Lemma namespace_attrs_do_not_matter_witness :
  XsdAttr Stub.pickup <> XsdAttr Faults.pickup_other_attrs /\
  RequestPickup (Stub.env Stub.success_body) Stub.pickup init
  = RequestPickup (Stub.env Stub.success_body) Faults.pickup_other_attrs init /\
  RateQuote (Stub.env Stub.success_body) Stub.quote init
  = RateQuote (Stub.env Stub.success_body) Faults.quote_other_attrs init.
Proof.
  split; [discriminate|].
  apply (namespace_attrs_do_not_matter
           (Stub.env Stub.success_body) init
           Stub.pickup Faults.pickup_other_attrs
           Stub.quote Faults.quote_other_attrs); reflexivity.
Defined.

Lemma run_call_frame env c w :
  (sets_production c = false ->
   pickupRequestURL (run_call env c w) = pickupRequestURL w) /\
  (sets_timeout c = false -> timeout (run_call env c w) = timeout w) /\
  length (posts (trace (run_call env c w)))
  = (length (posts (trace w)) + if sends env c then 1 else 0)%nat.
Proof.
  destruct c as [yes|seconds|p|q]; cbn [run_call sets_production sets_timeout sends].
  - repeat split; try discriminate.
    unfold SetProductionMode. cbn [snd trace]. now rewrite Nat.add_0_r.
  - repeat split; try discriminate.
    unfold SetTimeout. cbn [snd trace]. now rewrite Nat.add_0_r.
  - destruct (RequestPickup_frame env p w) as (_ & Hu & Ht & Hp).
    rewrite Hu, Ht, Hp, length_app.
    destruct (snd (xml_Marshal_PickupRequest env (with_fixed_attrs p))); auto.
  - destruct (RateQuote_frame env q w) as (_ & Hu & Ht & Hp).
    rewrite Hu, Ht, Hp, length_app.
    destruct (snd (xml_Marshal_RateQuoteRequest env (RQ_with_fixed_attrs q))); auto.
Qed.

Lemma run_calls_keep_timeout env cs : forall w,
  existsb sets_timeout cs = false ->
  timeout (run_calls env cs w) = timeout w.
Proof.
  induction cs as [|c cs IH]; intros w Hcs; cbn [run_calls]; [reflexivity|].
  cbn [existsb] in Hcs. apply orb_false_elim in Hcs as [Hc Hcs].
  rewrite (IH _ Hcs). now apply run_call_frame.
Qed.

(** X10. [SetTimeout] governs every request that follows it until the
    next [SetTimeout]: through any calls other than [SetTimeout], the next
    pickup request and the next rate quote carry the product it stored. *)
Theorem SetTimeout_governs_later_requests
    env (d : Duration) w cs (p : PickupRequest) (q : RateQuoteRequest) :
  existsb sets_timeout cs = false ->
  map post_timeout (posts (trace
    (snd (RequestPickup env p (run_calls env cs (snd (SetTimeout d w)))))))
  = (map post_timeout (posts (trace (run_calls env cs (snd (SetTimeout d w))))) ++
     match snd (xml_Marshal_PickupRequest env (with_fixed_attrs p)) with
     | None => [wrap64 (d * 1000000000)]
     | Some _ => []
     end)%list /\
  map post_timeout (posts (trace
    (snd (RateQuote env q (run_calls env cs (snd (SetTimeout d w)))))))
  = (map post_timeout (posts (trace (run_calls env cs (snd (SetTimeout d w))))) ++
     match snd (xml_Marshal_RateQuoteRequest env (RQ_with_fixed_attrs q)) with
     | None => [wrap64 (d * 1000000000)]
     | Some _ => []
     end)%list.
Proof.
  intros Hcs.
  assert (Ht : timeout (run_calls env cs (snd (SetTimeout d w)))
               = wrap64 (d * 1000000000))
    by (rewrite run_calls_keep_timeout by exact Hcs; reflexivity).
  destruct (RequestPickup_frame env p (run_calls env cs (snd (SetTimeout d w))))
    as (_ & _ & _ & Hp).
  destruct (RateQuote_frame env q (run_calls env cs (snd (SetTimeout d w))))
    as (_ & _ & _ & Hq).
  rewrite Hp, Hq, !map_app. unfold pickup_post, quote_post. rewrite Ht. split.
  - destruct (snd (xml_Marshal_PickupRequest env (with_fixed_attrs p))); reflexivity.
  - destruct (snd (xml_Marshal_RateQuoteRequest env (RQ_with_fixed_attrs q))); reflexivity.
Qed.

Lemma SetTimeout_governs_later_requests_witness :
  map post_timeout (posts (trace
    (snd (RateQuote (Stub.env Stub.success_body) Stub.quote
            (run_calls (Stub.env Stub.success_body)
                       [CallRequestPickup Stub.pickup; CallSetProductionMode true]
                       (snd (SetTimeout 30 init)))))))
  = [30000000000; 30000000000].
Proof.
  apply (SetTimeout_governs_later_requests
           (Stub.env Stub.success_body) 30 init
           [CallRequestPickup Stub.pickup; CallSetProductionMode true]
           Stub.pickup Stub.quote).
  reflexivity.
Defined.

(** X11. No call retries and no call posts on the side: over any sequence
    of calls, the number of requests posted is the number of pickup and
    rate-quote calls whose request marshalled. *)
Theorem one_post_per_marshalled_request env cs : forall w,
  length (posts (trace (run_calls env cs w)))
  = (length (posts (trace w)) + length (filter (sends env) cs))%nat.
Proof.
  induction cs as [|c cs IH]; intros w; cbn [run_calls filter].
  - cbn. lia.
  - rewrite IH. destruct (run_call_frame env c w) as (_ & _ & Hn). rewrite Hn.
    destruct (sends env c); cbn [length]; lia.
Qed.

(** X12. The pickup endpoint after any sequence of calls from the initial
    state: the production URL if [SetProductionMode] was called at least
    once, with either argument, and the test URL otherwise. *)
Theorem endpoint_after_calls env cs :
  pickupRequestURL (run_calls env cs init)
  = if existsb sets_production cs
    then "http://208.51.75.23:6082/cgi-bin/map/PICKUP"
    else "http://208.51.75.23:6082/cgi-bin/map/PICKUPTEST".
Proof.
  assert (Hgen : forall w,
             pickupRequestURL (run_calls env cs w)
             = if existsb sets_production cs
               then pickupRequestProductionURL else pickupRequestURL w).
  { induction cs as [|c cs IH]; intros w; cbn [run_calls existsb]; [reflexivity|].
    rewrite IH. destruct (existsb sets_production cs).
    - now rewrite orb_true_r.
    - rewrite orb_false_r. destruct (sets_production c) eqn:Hc.
      + destruct c; try discriminate Hc. reflexivity.
      + now apply run_call_frame. }
  apply Hgen.
Qed.

(** X13. Production mode has no effect on rate quotes: after
    [SetProductionMode], a rate quote returns what it would have returned
    before and leaves the same trace. *)
Theorem RateQuote_ignores_production_mode env (yes : bool) w (q : RateQuoteRequest) :
  fst (RateQuote env q (snd (SetProductionMode yes w))) = fst (RateQuote env q w) /\
  trace (snd (RateQuote env q (snd (SetProductionMode yes w))))
  = trace (snd (RateQuote env q w)).
Proof.
  unfold RateQuote, SetProductionMode. rewrite RQ_receiver_attrs.
  destruct (xml_Marshal_RateQuoteRequest env (RQ_with_fixed_attrs q)) as [xmlBytes [e|]].
  - split; reflexivity.
  - step_monad.
    destruct (http_Post env (trace w) _ _ _ _) as [[[body [e|]]]|e];
      step_monad; cbn [Body].
    + split; reflexivity.
    + destruct (xml_Unmarshal_RateQuoteResponse env body RateQuoteResponse_zero)
        as [responseData [e|]]; split; reflexivity.
    + split; reflexivity.
Qed.

End Ward.
